(** * TLS manager of the reverse proxy: certificate stores, TLS options and
      the two per-connection handshake hooks.

    Shallow embedding of [pkg/tls/tlsmanager.go] and
    [pkg/tls/certificate/certificate_type.go].

    Conventions of the embedding.
    - A Go [uint16] is a [Z]; the code only compares such values.
    - A Go slice whose nil-ness the code inspects is an [option (list _)]:
      [None] is the nil slice, [Some []] the empty non-nil slice.
    - A Go function returning [(value, error)] with exactly one of the two
      meaningful is a [result]; where the code uses both components
      ([buildCertificateStore], [Get]) the pair is kept.
    - [*CertificateStore] pointers are locations into a heap of store
      objects, so that sharing between the registry and the closures returned
      by [Get] is explicit.
    - Functions, tables and types of the program that live outside the two
      files (file reading, key-pair parsing, certificate generation, the
      best-certificate search, the identifier tables) are fields of the class
      [Collaborators]. *)

From Stdlib Require Import ZArith.
From stdpp Require Import base option list gmap strings fin_maps.

Open Scope string_scope.
Open Scope Z_scope.
Open Scope list_scope.

(** ** Package [certificate] *)

Module certificate.

Inductive CertificateType := RSA | EC.

#[global] Instance CertificateType_eq_dec : EqDecision CertificateType.
Proof. solve_decision. Defined.

Definition certTypeToStringMap (value : CertificateType) : string :=
  match value with
  | RSA => "RSA"
  | EC => "EC"
  end.

Definition String (value : CertificateType) : string :=
  certTypeToStringMap value.

End certificate.

Import certificate.

(** ** Errors *)

Definition FileOrContent := string.

Inductive error :=
  | ErrUnknownTLSOptions (configName : string)
  | ErrInvalidCertificatesIn (caFile : FileOrContent)
  | ErrInvalidCertificatesContent
  | ErrCAFilesRequired (clientAuthType : string)
  | ErrUnknownClientAuthType (clientAuthType : string)
  | ErrInvalidCipherSuite (cipher : string)
  | ErrInvalidCurveID (curve : string)
  | ErrStrictSNI (domainToCheck : string)
  | ErrCertFileContent (cause : error)
  | ErrKeyFileContent (cause : error)
  | ErrLoadX509KeyPair (cause : error)
  | ErrExternal (msg : string).

Inductive result (A : Type) :=
  | Ok (a : A)
  | Err (e : error).
Arguments Ok {A} a.
Arguments Err {A} e.

#[global] Instance result_ret : MRet result := fun _ a => Ok a.
#[global] Instance result_bind : MBind result := fun _ _ f r =>
  match r with
  | Ok a => f a
  | Err e => Err e
  end.

Definition isOk {A} (r : result A) : bool :=
  match r with Ok _ => true | Err _ => false end.

(** ** The parts of [crypto/tls] the manager touches *)

Definition TLS_CHACHA20_POLY1305_SHA256 : Z := 0x1303.
Definition TLS_ECDHE_RSA_WITH_CHACHA20_POLY1305 : Z := 0xcca8.
Definition TLS_ECDHE_ECDSA_WITH_CHACHA20_POLY1305 : Z := 0xcca9.

Definition ACMETLS1Protocol : string := "acme-tls/1".

Inductive tls_ClientAuthType :=
  | NoClientCert
  | RequestClientCert
  | RequireAnyClientCert
  | VerifyClientCertIfGiven
  | RequireAndVerifyClientCert.

(** The two fields of [tls.ClientHelloInfo] that [tlsmanager.go] reads. *)
Record ClientHelloInfo := {
  Hello_ServerName : string;
  Hello_CipherSuites : option (list Z)
}.

(** [tls.Config] without its two hook fields: the hooks are the functions
    [GetConfigForClient] and [GetCertificate] below, applied to the closure
    environment that [Get] returns. *)
Record tls_Config {CertPool : Type} := {
  Config_NextProtos : list string;
  Config_ClientCAs : option CertPool;
  Config_ClientAuth : tls_ClientAuthType;
  Config_PreferServerCipherSuites : bool;
  Config_MinVersion : Z;
  Config_MaxVersion : Z;
  Config_CipherSuites : option (list Z);
  Config_CurvePreferences : option (list Z)
}.
Arguments tls_Config : clear implicits.

(** [&tls.Config{}] *)
Definition zeroConfig {CertPool} : tls_Config CertPool :=
  {| Config_NextProtos := [];
     Config_ClientCAs := None;
     Config_ClientAuth := NoClientCert;
     Config_PreferServerCipherSuites := false;
     Config_MinVersion := 0;
     Config_MaxVersion := 0;
     Config_CipherSuites := None;
     Config_CurvePreferences := None |}.

Definition setCipherSuites {CertPool} (conf : tls_Config CertPool)
    (suites : option (list Z)) : tls_Config CertPool :=
  {| Config_NextProtos := Config_NextProtos conf;
     Config_ClientCAs := Config_ClientCAs conf;
     Config_ClientAuth := Config_ClientAuth conf;
     Config_PreferServerCipherSuites := Config_PreferServerCipherSuites conf;
     Config_MinVersion := Config_MinVersion conf;
     Config_MaxVersion := Config_MaxVersion conf;
     Config_CipherSuites := suites;
     Config_CurvePreferences := Config_CurvePreferences conf |}.

(** ** Cipher adaptation (the configuration-selection hook) *)

Definition isChaChaCipherSuite (cipherSuite : Z) : bool :=
  (cipherSuite =? TLS_CHACHA20_POLY1305_SHA256)
  || (cipherSuite =? TLS_ECDHE_ECDSA_WITH_CHACHA20_POLY1305)
  || (cipherSuite =? TLS_ECDHE_RSA_WITH_CHACHA20_POLY1305).

(** First loop of the hook: [forceCiphers] collects, by [append], the
    configured suites that are one of the three ChaCha20 identifiers. *)
Fixpoint collectForceCiphers (suites forceCiphers : list Z) : list Z :=
  match suites with
  | [] => forceCiphers
  | cipherSuite :: rest =>
      collectForceCiphers rest
        (if (cipherSuite =? TLS_CHACHA20_POLY1305_SHA256)
            || (cipherSuite =? TLS_ECDHE_ECDSA_WITH_CHACHA20_POLY1305)
            || (cipherSuite =? TLS_ECDHE_RSA_WITH_CHACHA20_POLY1305)
         then forceCiphers ++ [cipherSuite]
         else forceCiphers)
  end.

(** Inner loop of [newCipherSuitesLoop] for one configured [cipherSuite]:
    it walks [forceCiphers]; on the first forced suite equal to
    [cipherSuite] it continues with the next configured suite, and for every
    forced suite passed before that it appends [cipherSuite] to the list
    under construction. *)
Fixpoint innerCipherSuitesLoop (cipherSuite : Z) (forceCiphers : list Z)
    (configCipherSuites : list Z) : list Z :=
  match forceCiphers with
  | [] => configCipherSuites
  | forcedCipherSuite :: rest =>
      if forcedCipherSuite =? cipherSuite
      then configCipherSuites
      else innerCipherSuitesLoop cipherSuite rest
             (configCipherSuites ++ [cipherSuite])
  end.

Fixpoint newCipherSuitesLoop (suites forceCiphers : list Z)
    (configCipherSuites : list Z) : list Z :=
  match suites with
  | [] => configCipherSuites
  | cipherSuite :: rest =>
      newCipherSuitesLoop rest forceCiphers
        (innerCipherSuitesLoop cipherSuite forceCiphers configCipherSuites)
  end.

(** The second (effective) assignment to [tlsConfig.GetConfigForClient]. The
    hook always returns [(config, nil)], so only [config] is modelled. *)
Definition GetConfigForClient {CertPool} (tlsConfig : tls_Config CertPool)
    (clientHello : ClientHelloInfo) : tls_Config CertPool :=
  let config := tlsConfig (* tlsConfig.Clone() *) in
  match Config_CipherSuites tlsConfig with
  | Some configured =>
      if (0 <? length configured)%nat then
        match Hello_CipherSuites clientHello with
        | Some (first :: _) =>
            if isChaChaCipherSuite first then
              let forceCiphers := collectForceCiphers configured [] in
              setCipherSuites config
                (Some (newCipherSuitesLoop configured forceCiphers
                         forceCiphers))
            else config
        | _ => config
        end
      else config
  | None => config
  end.

(** ** Configuration types of package [tls]

    [Options], [ClientAuth], [Store], [Certificate] and [CertAndStores] are
    declared in sibling files of the package; the records hold the fields
    that [tlsmanager.go] reads. *)

Record ClientAuth := {
  CAFiles : list FileOrContent;
  ClientAuthType : string
}.

Record Options := {
  Options_MinVersion : string;
  Options_MaxVersion : string;
  Options_CipherSuites : option (list string);
  Options_CurvePreferences : option (list string);
  Options_ClientAuth : ClientAuth;
  Options_SniStrict : bool
}.

(** [Options{}] *)
Definition DefaultTLSOptions : Options :=
  {| Options_MinVersion := "";
     Options_MaxVersion := "";
     Options_CipherSuites := None;
     Options_CurvePreferences := None;
     Options_ClientAuth := {| CAFiles := []; ClientAuthType := "" |};
     Options_SniStrict := false |}.

Record Certificate := {
  CertFile : FileOrContent;
  KeyFile : FileOrContent
}.

Record Store := {
  Store_DefaultCertificate : option Certificate;
  Store_DefaultCertificates : list Certificate
}.

(** [Store{}] *)
Definition zeroStore : Store :=
  {| Store_DefaultCertificate := None; Store_DefaultCertificates := [] |}.

Record CertAndStores := {
  CertAndStores_Certificate : Certificate;
  Stores : list string
}.

Definition loc := nat.

Section Manager.

(** [tls.Certificate], [x509.CertPool] and the key type of the dynamic
    certificate map are opaque to the manager. *)
Context {tls_Certificate CertPool : Type}.
Context `{Countable certificateKey}.

Record CertificateStore := {
  DynamicCerts : gmap certificateKey tls_Certificate;
  DefaultCertificates : list tls_Certificate
}.

Definition StoresCertificates : Type :=
  gmap string (gmap certificateKey tls_Certificate).

(** What [tlsmanager.go] calls in other files and packages. Each call is a
    function of its arguments: one outcome per argument during the run
    under consideration. *)
Class Collaborators := {
  (** [FileOrContent.Read] and [FileOrContent.IsPath] *)
  Read : FileOrContent → result string;
  IsPath : FileOrContent → bool;
  (** [tls.X509KeyPair] *)
  X509KeyPair : string → string → result tls_Certificate;
  (** [x509.NewCertPool] and [CertPool.AppendCertsFromPEM] *)
  NewCertPool : CertPool;
  AppendCertsFromPEM : CertPool → string → CertPool * bool;
  (** [certificate.GetCertificateType] *)
  GetCertificateType : tls_Certificate → result CertificateType;
  (** [generate.DefaultCertificate] *)
  generate_DefaultCertificate : CertificateType → result tls_Certificate;
  (** [getCertTypeForClientHello] *)
  getCertTypeForClientHello : ClientHelloInfo → CertificateType;
  (** [CertificateStore.GetBestCertificate]; [None] is the nil
      certificate. The certificate cache of the store is private to it. *)
  GetBestCertificate :
    CertificateStore → ClientHelloInfo → option tls_Certificate;
  (** [Certificate.AppendCertificate]: the updated map of maps and the
      error, if any *)
  AppendCertificate :
    Certificate → StoresCertificates → string →
    StoresCertificates * option error;
  (** [types.CanonicalDomain] *)
  CanonicalDomain : string → string;
  (** the identifier tables of the package *)
  MinVersion : gmap string Z;
  MaxVersion : gmap string Z;
  CipherSuites : gmap string Z;
  CurveIDs : gmap string Z
}.

Context {collab : Collaborators}.

Abbreviation Config := (tls_Config CertPool).

(** *** [buildTLSConfig] *)

Definition setClientCAs (conf : Config) (pool : CertPool) : Config :=
  {| Config_NextProtos := Config_NextProtos conf;
     Config_ClientCAs := Some pool;
     Config_ClientAuth := Config_ClientAuth conf;
     Config_PreferServerCipherSuites := Config_PreferServerCipherSuites conf;
     Config_MinVersion := Config_MinVersion conf;
     Config_MaxVersion := Config_MaxVersion conf;
     Config_CipherSuites := Config_CipherSuites conf;
     Config_CurvePreferences := Config_CurvePreferences conf |}.

Definition setClientAuth (conf : Config) (policy : tls_ClientAuthType)
    : Config :=
  {| Config_NextProtos := Config_NextProtos conf;
     Config_ClientCAs := Config_ClientCAs conf;
     Config_ClientAuth := policy;
     Config_PreferServerCipherSuites := Config_PreferServerCipherSuites conf;
     Config_MinVersion := Config_MinVersion conf;
     Config_MaxVersion := Config_MaxVersion conf;
     Config_CipherSuites := Config_CipherSuites conf;
     Config_CurvePreferences := Config_CurvePreferences conf |}.

(** [conf.PreferServerCipherSuites = true; conf.MinVersion = minConst] *)
Definition setMinVersion (conf : Config) (minConst : Z) : Config :=
  {| Config_NextProtos := Config_NextProtos conf;
     Config_ClientCAs := Config_ClientCAs conf;
     Config_ClientAuth := Config_ClientAuth conf;
     Config_PreferServerCipherSuites := true;
     Config_MinVersion := minConst;
     Config_MaxVersion := Config_MaxVersion conf;
     Config_CipherSuites := Config_CipherSuites conf;
     Config_CurvePreferences := Config_CurvePreferences conf |}.

Definition setMaxVersion (conf : Config) (maxConst : Z) : Config :=
  {| Config_NextProtos := Config_NextProtos conf;
     Config_ClientCAs := Config_ClientCAs conf;
     Config_ClientAuth := Config_ClientAuth conf;
     Config_PreferServerCipherSuites := true;
     Config_MinVersion := Config_MinVersion conf;
     Config_MaxVersion := maxConst;
     Config_CipherSuites := Config_CipherSuites conf;
     Config_CurvePreferences := Config_CurvePreferences conf |}.

Definition setCurvePreferences (conf : Config) (curves : option (list Z))
    : Config :=
  {| Config_NextProtos := Config_NextProtos conf;
     Config_ClientCAs := Config_ClientCAs conf;
     Config_ClientAuth := Config_ClientAuth conf;
     Config_PreferServerCipherSuites := Config_PreferServerCipherSuites conf;
     Config_MinVersion := Config_MinVersion conf;
     Config_MaxVersion := Config_MaxVersion conf;
     Config_CipherSuites := Config_CipherSuites conf;
     Config_CurvePreferences := curves |}.

(** The loop over [tlsOption.ClientAuth.CAFiles]. *)
Fixpoint loadCAFiles (caFiles : list FileOrContent) (pool : CertPool)
    : result CertPool :=
  match caFiles with
  | [] => Ok pool
  | caFile :: rest =>
      data ← Read caFile;
      let '(pool', ok) := AppendCertsFromPEM pool data in
      if ok then loadCAFiles rest pool'
      else if IsPath caFile then Err (ErrInvalidCertificatesIn caFile)
      else Err ErrInvalidCertificatesContent
  end.

(** The loops over [tlsOption.CipherSuites] and
    [tlsOption.CurvePreferences]: append the constant of each identifier,
    stop at the first identifier missing from the table. *)
Fixpoint resolveCipherSuites (ciphers : list string) (suites : list Z)
    : result (list Z) :=
  match ciphers with
  | [] => Ok suites
  | cipher :: rest =>
      match CipherSuites !! cipher with
      | Some cipherConst => resolveCipherSuites rest (suites ++ [cipherConst])
      | None => Err (ErrInvalidCipherSuite cipher)
      end
  end.

Fixpoint resolveCurvePreferences (curves : list string) (ids : list Z)
    : result (list Z) :=
  match curves with
  | [] => Ok ids
  | curve :: rest =>
      match CurveIDs !! curve with
      | Some curveID => resolveCurvePreferences rest (ids ++ [curveID])
      | None => Err (ErrInvalidCurveID curve)
      end
  end.

Definition clientCAsStage (tlsOption : Options) (conf : Config)
    : result Config :=
  let caFiles := CAFiles (Options_ClientAuth tlsOption) in
  if (0 <? length caFiles)%nat then
    pool ← loadCAFiles caFiles NewCertPool;
    Ok (setClientAuth (setClientCAs conf pool) RequireAndVerifyClientCert)
  else Ok conf.

Definition clientAuthTypeStage (tlsOption : Options) (conf : Config)
    : result Config :=
  let clientAuthType := ClientAuthType (Options_ClientAuth tlsOption) in
  if (0 <? String.length clientAuthType)%nat then
    if negb (bool_decide (is_Some (Config_ClientCAs conf)))
       && ((clientAuthType =? "VerifyClientCertIfGiven")%string
           || (clientAuthType =? "RequireAndVerifyClientCert")%string)
    then Err (ErrCAFilesRequired clientAuthType)
    else if (clientAuthType =? "NoClientCert")%string
    then Ok (setClientAuth conf NoClientCert)
    else if (clientAuthType =? "RequestClientCert")%string
    then Ok (setClientAuth conf RequestClientCert)
    else if (clientAuthType =? "RequireAnyClientCert")%string
    then Ok (setClientAuth conf RequireAnyClientCert)
    else if (clientAuthType =? "VerifyClientCertIfGiven")%string
    then Ok (setClientAuth conf VerifyClientCertIfGiven)
    else if (clientAuthType =? "RequireAndVerifyClientCert")%string
    then Ok (setClientAuth conf RequireAndVerifyClientCert)
    else Err (ErrUnknownClientAuthType clientAuthType)
  else Ok conf.

Definition minVersionStage (tlsOption : Options) (conf : Config) : Config :=
  match MinVersion !! Options_MinVersion tlsOption with
  | Some minConst => setMinVersion conf minConst
  | None => conf
  end.

Definition maxVersionStage (tlsOption : Options) (conf : Config) : Config :=
  match MaxVersion !! Options_MaxVersion tlsOption with
  | Some maxConst => setMaxVersion conf maxConst
  | None => conf
  end.

Definition cipherSuitesStage (tlsOption : Options) (conf : Config)
    : result Config :=
  match Options_CipherSuites tlsOption with
  | Some ciphers =>
      suites ← resolveCipherSuites ciphers [];
      Ok (setCipherSuites conf (Some suites))
  | None => Ok conf
  end.

Definition curvePreferencesStage (tlsOption : Options) (conf : Config)
    : result Config :=
  match Options_CurvePreferences tlsOption with
  | Some curves =>
      ids ← resolveCurvePreferences curves [];
      Ok (setCurvePreferences conf (Some ids))
  | None => Ok conf
  end.

Definition initialConfig : Config :=
  {| Config_NextProtos := ["h2"; "http/1.1"; ACMETLS1Protocol];
     Config_ClientCAs := None;
     Config_ClientAuth := NoClientCert;
     Config_PreferServerCipherSuites := false;
     Config_MinVersion := 0;
     Config_MaxVersion := 0;
     Config_CipherSuites := None;
     Config_CurvePreferences := None |}.

Definition buildTLSConfig (tlsOption : Options) : result Config :=
  conf ← clientCAsStage tlsOption initialConfig;
  conf ← clientAuthTypeStage tlsOption conf;
  let conf := minVersionStage tlsOption conf in
  let conf := maxVersionStage tlsOption conf in
  conf ← cipherSuitesStage tlsOption conf;
  curvePreferencesStage tlsOption conf.

(** *** Building a certificate store *)

Definition buildDefaultCertificate (defaultCertificate : Certificate)
    : result tls_Certificate :=
  match Read (CertFile defaultCertificate) with
  | Err err => Err (ErrCertFileContent err)
  | Ok certFile =>
      match Read (KeyFile defaultCertificate) with
      | Err err => Err (ErrKeyFileContent err)
      | Ok keyFile =>
          match X509KeyPair certFile keyFile with
          | Err err => Err (ErrLoadX509KeyPair err)
          | Ok cert => Ok cert
          end
      end
  end.

(** The source fills a slice of [len(defaultCertificates)] entries by index,
    front to back, and returns at the first failure: the result is the list
    of built certificates in the configured order. *)
Fixpoint buildDefaultCertificates (defaultCertificates : list Certificate)
    : result (list tls_Certificate) :=
  match defaultCertificates with
  | [] => Ok []
  | cert :: rest =>
      builtCert ← buildDefaultCertificate cert;
      certs ← buildDefaultCertificates rest;
      Ok (builtCert :: certs)
  end.

(** [NewCertificateStore()] followed by [DynamicCerts.Set] of an empty map. *)
Definition NewCertificateStore : CertificateStore :=
  {| DynamicCerts := ∅; DefaultCertificates := [] |}.

Definition setDefaultCertificates (store : CertificateStore)
    (certs : list tls_Certificate) : CertificateStore :=
  {| DynamicCerts := DynamicCerts store; DefaultCertificates := certs |}.

Definition setDynamicCerts (certs : gmap certificateKey tls_Certificate)
    (store : CertificateStore) : CertificateStore :=
  {| DynamicCerts := certs; DefaultCertificates := DefaultCertificates store |}.

(** The loop that looks for an existing RSA certificate among the defaults:
    a certificate whose type cannot be detected is skipped. *)
Fixpoint hasRSADefault (certs : list tls_Certificate) : bool :=
  match certs with
  | [] => false
  | cert :: rest =>
      match GetCertificateType cert with
      | Err _ => hasRSADefault rest
      | Ok certType =>
          if bool_decide (certType = RSA) then true else hasRSADefault rest
      end
  end.

(** The three-way branch on the configured defaults: the default
    certificates and the value of [hasRSACertificate] after it. *)
Definition configuredDefaults (tlsStore : Store)
    : result (list tls_Certificate * bool) :=
  if (0 <? length (Store_DefaultCertificates tlsStore))%nat then
    cert ← buildDefaultCertificates (Store_DefaultCertificates tlsStore);
    Ok (cert, false)
  else
    match Store_DefaultCertificate tlsStore with
    | Some defaultCertificate =>
        cert ← buildDefaultCertificate defaultCertificate;
        Ok ([cert], false)
    | None =>
        rsaCert ← generate_DefaultCertificate RSA;
        ecCert ← generate_DefaultCertificate EC;
        Ok ([rsaCert; ecCert], true)
    end.

(** [buildCertificateStore] returns the store object also when it returns an
    error, so both components are kept. *)
Definition buildCertificateStore (tlsStore : Store)
    : CertificateStore * option error :=
  let certificateStore := NewCertificateStore in
  match configuredDefaults tlsStore with
  | Err err => (certificateStore, Some err)
  | Ok (defaults, hasRSACertificate) =>
      let certificateStore := setDefaultCertificates certificateStore defaults in
      let hasRSACertificate :=
        if negb hasRSACertificate then hasRSADefault defaults
        else hasRSACertificate in
      if negb hasRSACertificate then
        match generate_DefaultCertificate RSA with
        | Err err => (certificateStore, Some err)
        | Ok cert =>
            (setDefaultCertificates certificateStore (defaults ++ [cert]), None)
        end
      else (certificateStore, None)
  end.

(** *** The manager *)

Record Manager := {
  storesConfig : gmap string Store;
  stores : gmap string loc;
  configs : gmap string Options;
  certs : list CertAndStores;
  TLSAlpnGetter : option (string → result (option tls_Certificate))
}.

(** The manager object together with the store objects its registry and the
    closures point to. A new store object gets the next free location. *)
Record State := {
  heap : list CertificateStore;
  manager : Manager
}.

Definition NewManager : Manager :=
  {| storesConfig := ∅;
     stores := ∅;
     configs := {[ "default" := DefaultTLSOptions ]};
     certs := [];
     TLSAlpnGetter := None |}.

Definition setStores (m : Manager) (registry : gmap string loc) : Manager :=
  {| storesConfig := storesConfig m;
     stores := registry;
     configs := configs m;
     certs := certs m;
     TLSAlpnGetter := TLSAlpnGetter m |}.

(** The store object a pointer designates. Every location handed out by
    [getStore] is below the length of the heap, and neither [Get] nor
    [UpdateConfigs] removes a store object (lemmas [Get_wellFormed],
    [UpdateConfigs_frame]), so the default is not reached through a closure
    of [Get]. *)
Definition deref (h : list CertificateStore) (l : loc) : CertificateStore :=
  default NewCertificateStore (h !! l).

Definition getStore (s : State) (storeName : string) : loc * State :=
  match stores (manager s) !! storeName with
  | Some l => (l, s)
  | None =>
      let '(store, _) := buildCertificateStore zeroStore in
      let l := length (heap s) in
      (l, {| heap := heap s ++ [store];
             manager :=
               setStores (manager s) (<[storeName := l]> (stores (manager s))) |})
  end.

Definition GetStore (s : State) (storeName : string) : loc * State :=
  getStore s storeName.

(** What the two closures built by [Get] capture: the pointer [tlsConfig],
    the pointer [store] and the string [configName]. They also capture the
    manager [m] itself, which is why the certificate hook takes the state at
    the time of the handshake. *)
Record Closure := {
  closure_tlsConfig : Config;
  closure_store : loc;
  closure_configName : string
}.

Definition Get (s : State) (storeName configName : string)
    : (Closure * option error) * State :=
  let config := configs (manager s) !! configName in
  let '(store, s') := getStore s storeName in
  let '(tlsConfig, err) :=
    match config with
    | None => (zeroConfig, Some (ErrUnknownTLSOptions configName))
    | Some config =>
        match buildTLSConfig config with
        | Ok tlsConfig => (tlsConfig, None)
        | Err err => (zeroConfig, Some err)
        end
    end in
  (({| closure_tlsConfig := tlsConfig;
       closure_store := store;
       closure_configName := configName |}, err), s').

(** The loop over [store.DefaultCertificates] at the end of the certificate
    hook; [matchingCert] is the variable of that name. *)
Fixpoint defaultCertificateLoop (preferredType : CertificateType)
    (defaults : list tls_Certificate) (matchingCert : option tls_Certificate)
    : option tls_Certificate :=
  match defaults with
  | [] => matchingCert
  | cert :: rest =>
      match GetCertificateType cert with
      | Err _ => defaultCertificateLoop preferredType rest matchingCert
      | Ok certType =>
          if bool_decide (certType = EC) && bool_decide (preferredType = EC)
          then Some cert
          else if bool_decide (certType = RSA) then
            if bool_decide (preferredType = RSA) then Some cert
            else defaultCertificateLoop preferredType rest (Some cert)
          else defaultCertificateLoop preferredType rest matchingCert
      end
  end.

(** [m.configs[configName].SniStrict]: a missing key yields [Options{}]. *)
Definition sniStrictOf (m : Manager) (configName : string) : bool :=
  Options_SniStrict (default DefaultTLSOptions (configs m !! configName)).

(** The closure assigned to [tlsConfig.GetCertificate], run in state [s]. *)
Definition GetCertificate (c : Closure) (s : State)
    (clientHello : ClientHelloInfo) : result (option tls_Certificate) :=
  let m := manager s in
  let store := deref (heap s) (closure_store c) in
  let domainToCheck := CanonicalDomain (Hello_ServerName clientHello) in
  let alpn :=
    match TLSAlpnGetter m with
    | Some getter => getter domainToCheck
    | None => Ok None
    end in
  match alpn with
  | Err err => Err err
  | Ok (Some cert) => Ok (Some cert)
  | Ok None =>
      match GetBestCertificate store clientHello with
      | Some bestCertificate => Ok (Some bestCertificate)
      | None =>
          if sniStrictOf m (closure_configName c)
          then Err (ErrStrictSNI domainToCheck)
          else
            let preferredType := getCertTypeForClientHello clientHello in
            Ok (defaultCertificateLoop preferredType
                  (DefaultCertificates store) None)
      end
  end.

(** *** [UpdateConfigs] *)

(** One iteration of the loop over [m.storesConfig]; a store whose build
    fails is skipped. *)
Definition rebuildStore (acc : list CertificateStore * gmap string loc)
    (entry : string * Store) : list CertificateStore * gmap string loc :=
  let '(h, registry) := acc in
  match buildCertificateStore entry.2 with
  | (_, Some _) => acc
  | (store, None) => (h ++ [store], <[entry.1 := length h]> registry)
  end.

(** [conf.Stores = []string{"default"}] when no store is given. *)
Definition defaultStores (conf : CertAndStores) : CertAndStores :=
  if (length (Stores conf) =? 0)%nat
  then {| CertAndStores_Certificate := CertAndStores_Certificate conf;
          Stores := ["default"] |}
  else conf.

(** The loop over [certs]: the error of [AppendCertificate] is logged. *)
Definition appendCertificates (storesCertificates : StoresCertificates)
    (conf : CertAndStores) : StoresCertificates :=
  fold_left
    (fun acc store =>
       (AppendCertificate (CertAndStores_Certificate conf) acc store).1)
    (Stores (defaultStores conf)) storesCertificates.

(** [m.getStore(storeName).DynamicCerts.Set(certs)] *)
Definition setStoreCertificates (s : State)
    (entry : string * gmap certificateKey tls_Certificate) : State :=
  let '(l, s') := getStore s entry.1 in
  {| heap := alter (setDynamicCerts entry.2) l (heap s');
     manager := manager s' |}.

(** Go ranges over a map in an unspecified order; [map_to_list] fixes one.
    The order only decides which location a new store object gets. *)
Definition UpdateConfigs (s : State) (stores_ : gmap string Store)
    (configs_ : gmap string Options) (certs_ : list CertAndStores) : State :=
  let '(h, registry) :=
    fold_left rebuildStore (map_to_list stores_) (heap s, ∅) in
  let m :=
    {| storesConfig := stores_;
       stores := registry;
       configs := configs_;
       certs := defaultStores <$> certs_;
       TLSAlpnGetter := TLSAlpnGetter (manager s) |} in
  let storesCertificates := fold_left appendCertificates certs_ ∅ in
  fold_left setStoreCertificates (map_to_list storesCertificates)
    {| heap := h; manager := m |}.

End Manager.

Arguments CertificateStore : clear implicits.
Arguments CertificateStore _ _ {_ _}.
Arguments Collaborators : clear implicits.
Arguments Collaborators _ _ _ {_ _}.
Arguments Manager : clear implicits.
Arguments State : clear implicits.
Arguments State _ _ {_ _}.
Arguments Closure : clear implicits.

(** ** Reference functions and predicates of the statements

    [firstOfType], [lastOfType] and [chachaFirst] follow the words of the
    specification ("the first default record whose key algorithm equals the
    hint", "every configured classified suite first"), not the code; the
    theorems compare the code with them. The predicates state what is
    assumed of the collaborators and of the state. *)

Section Reference.

Context {tls_Certificate CertPool : Type}.
Context `{Countable certificateKey}.
Context {collab : Collaborators tls_Certificate CertPool certificateKey}.

Definition hasType (certType : CertificateType) (cert : tls_Certificate)
    : bool :=
  match GetCertificateType cert with
  | Ok t => bool_decide (t = certType)
  | Err _ => false
  end.

Definition firstOfType (certType : CertificateType)
    (defaults : list tls_Certificate) : option tls_Certificate :=
  head (List.filter (hasType certType) defaults).

Definition lastOfType (certType : CertificateType)
    (defaults : list tls_Certificate) : option tls_Certificate :=
  last (List.filter (hasType certType) defaults).

(** The default-certificate generator yields a certificate of the type it
    was asked for. *)
Definition generatorSound : Prop :=
  ∀ certType cert,
    generate_DefaultCertificate certType = Ok cert →
    GetCertificateType cert = Ok certType.

(** The ALPN-challenge provider is absent or has no certificate for
    [domain]. *)
Definition alpnSilent (m : Manager tls_Certificate) (domain : string) : Prop :=
  match TLSAlpnGetter m with
  | Some getter => getter domain = Ok None
  | None => True
  end.

(** Every pointer of the registry designates a store object. *)
Definition wellFormed (s : State tls_Certificate certificateKey) : Prop :=
  ∀ storeName l,
    stores (manager s) !! storeName = Some l → (l < length (heap s))%nat.

(** Every pointer of the registry designates a store object allocated at
    location [n] or later. *)
Definition allocatedFrom (n : nat)
    (s : State tls_Certificate certificateKey) : Prop :=
  (n ≤ length (heap s))%nat
  ∧ ∀ storeName l,
      stores (manager s) !! storeName = Some l →
      (n ≤ l < length (heap s))%nat.

(** How many entries of [forceCiphers] the inner loop of the cipher
    adaptation passes before it meets [cipherSuite]: all of them when
    [cipherSuite] is not among them. *)
Fixpoint forcedBefore (cipherSuite : Z) (forceCiphers : list Z) : nat :=
  match forceCiphers with
  | [] => 0
  | forcedCipherSuite :: rest =>
      if forcedCipherSuite =? cipherSuite then 0%nat
      else S (forcedBefore cipherSuite rest)
  end.

(** The list the specification asks of the cipher adaptation: the configured
    ChaCha20 suites first, then the remaining ones, each in configured
    order. *)
Definition chachaFirst (configured : list Z) : list Z :=
  List.filter isChaChaCipherSuite configured
  ++ List.filter (fun c => negb (isChaChaCipherSuite c)) configured.

(** The client-auth policy a policy string of the options stands for. *)
Definition policyOf (clientAuthType : string) : option tls_ClientAuthType :=
  if (clientAuthType =? "NoClientCert")%string then Some NoClientCert
  else if (clientAuthType =? "RequestClientCert")%string
  then Some RequestClientCert
  else if (clientAuthType =? "RequireAnyClientCert")%string
  then Some RequireAnyClientCert
  else if (clientAuthType =? "VerifyClientCertIfGiven")%string
  then Some VerifyClientCertIfGiven
  else if (clientAuthType =? "RequireAndVerifyClientCert")%string
  then Some RequireAndVerifyClientCert
  else None.

(** The two policies that verify the client certificate. *)
Definition verifies (policy : tls_ClientAuthType) : bool :=
  match policy with
  | VerifyClientCertIfGiven | RequireAndVerifyClientCert => true
  | _ => false
  end.

(** The default certificates a store definition configures: the list when it
    is not empty, else the single certificate if there is one. *)
Definition configuredCertificates (tlsStore : Store) : list Certificate :=
  match Store_DefaultCertificates tlsStore with
  | [] => option_list (Store_DefaultCertificate tlsStore)
  | defaultCertificates => defaultCertificates
  end.

(** The store object registered under a name, if any. *)
Definition storeOf (s : State tls_Certificate certificateKey)
    (storeName : string)
    : option (CertificateStore tls_Certificate certificateKey) :=
  stores (manager s) !! storeName ≫= fun l => heap s !! l.

(** No two names of the registry share a store object. *)
Definition separateStores (s : State tls_Certificate certificateKey) : Prop :=
  ∀ name1 name2 l,
    stores (manager s) !! name1 = Some l →
    stores (manager s) !! name2 = Some l →
    name1 = name2.

(** The store that get-or-create makes for a name it does not know. *)
Definition createdStore : CertificateStore tls_Certificate certificateKey :=
  (buildCertificateStore zeroStore).1.

(** The store a store definition builds, none if the build fails. *)
Definition builtStore (stores_ : gmap string Store) (storeName : string)
    : option (CertificateStore tls_Certificate certificateKey) :=
  stores_ !! storeName ≫= fun tlsStore =>
    match buildCertificateStore tlsStore with
    | (store, None) => Some store
    | (_, Some _) => None
    end.

(** What a reload with these store definitions and certificates registers
    under a name. *)
Definition reloadedStore (stores_ : gmap string Store)
    (certs_ : list CertAndStores) (storeName : string)
    : option (CertificateStore tls_Certificate certificateKey) :=
  match fold_left appendCertificates certs_ ∅ !! storeName with
  | Some certs =>
      Some (setDynamicCerts certs
              (default createdStore (builtStore stores_ storeName)))
  | None => builtStore stores_ storeName
  end.

(** [m.TLSAlpnGetter = getter], the field being public. *)
Definition setTLSAlpnGetter (s : State tls_Certificate certificateKey)
    (getter : option (string → result (option tls_Certificate)))
    : State tls_Certificate certificateKey :=
  {| heap := heap s;
     manager :=
       {| storesConfig := storesConfig (manager s);
          stores := stores (manager s);
          configs := configs (manager s);
          certs := certs (manager s);
          TLSAlpnGetter := getter |} |}.

(** One call on the manager. *)
Inductive step :
    State tls_Certificate certificateKey →
    State tls_Certificate certificateKey → Prop :=
  | step_Get s storeName configName :
      step s (Get s storeName configName).2
  | step_GetStore s storeName :
      step s (GetStore s storeName).2
  | step_UpdateConfigs s stores_ configs_ certs_ :
      step s (UpdateConfigs s stores_ configs_ certs_)
  | step_TLSAlpnGetter s getter :
      step s (setTLSAlpnGetter s getter).

(** The states a manager from [NewManager] can get into. *)
Definition reachable (s : State tls_Certificate certificateKey) : Prop :=
  rtc step {| heap := []; manager := NewManager |} s.

End Reference.

(** ** A concrete set of collaborators

    Certificates are a name and the kind of their private key; files hold
    their own content; the tables carry a few of the real identifiers. *)

Module Sample.

Inductive keyKind := RSAKey | ECDSAKey | Ed25519Key.

Record cert := {
  cert_name : string;
  cert_key : keyKind
}.

Definition read (f : FileOrContent) : result string :=
  if (f =? "/missing.pem")%string then Err (ErrExternal "no such file")
  else Ok f.

Definition isPath (f : FileOrContent) : bool :=
  String.prefix "/" f.

Definition x509KeyPair (certFile keyFile : string) : result cert :=
  if (keyFile =? "rsa key")%string
  then Ok {| cert_name := certFile; cert_key := RSAKey |}
  else if (keyFile =? "ecdsa key")%string
  then Ok {| cert_name := certFile; cert_key := ECDSAKey |}
  else if (keyFile =? "ed25519 key")%string
  then Ok {| cert_name := certFile; cert_key := Ed25519Key |}
  else Err (ErrExternal "tls: failed to find any PEM data in key input").

Definition appendCertsFromPEM (pool : list string) (data : string)
    : list string * bool :=
  if String.prefix "-----BEGIN CERTIFICATE-----" data
  then (pool ++ [data], true)
  else (pool, false).

Definition getCertificateType (c : cert) : result CertificateType :=
  match cert_key c with
  | RSAKey => Ok RSA
  | ECDSAKey => Ok EC
  | Ed25519Key => Err (ErrExternal "unknown certificate type")
  end.

Definition generateDefault (t : CertificateType) : result cert :=
  match t with
  | RSA => Ok {| cert_name := "TRAEFIK DEFAULT CERT"; cert_key := RSAKey |}
  | EC => Ok {| cert_name := "TRAEFIK DEFAULT CERT"; cert_key := ECDSAKey |}
  end.

Definition TLS_ECDHE_ECDSA_WITH_AES_128_GCM_SHA256 : Z := 0xc02b.
Definition TLS_ECDHE_RSA_WITH_AES_128_GCM_SHA256 : Z := 0xc02f.
Definition TLS_AES_128_GCM_SHA256 : Z := 0x1301.

(** EC as soon as the client's first suite is an ECDSA one. *)
Definition certTypeForClientHello (clientHello : ClientHelloInfo)
    : CertificateType :=
  match Hello_CipherSuites clientHello with
  | Some (first :: _) =>
      if (first =? TLS_ECDHE_ECDSA_WITH_AES_128_GCM_SHA256)
         || (first =? TLS_ECDHE_ECDSA_WITH_CHACHA20_POLY1305)
      then EC else RSA
  | _ => RSA
  end.

(** Exact match of the server name against the keys of the dynamic map. *)
Definition bestCertificate (store : CertificateStore cert string)
    (clientHello : ClientHelloInfo) : option cert :=
  DynamicCerts store !! Hello_ServerName clientHello.

(** The certificate is filed under the content of its certificate file. *)
Definition appendCertificate (c : Certificate)
    (storesCertificates : gmap string (gmap string cert)) (store : string)
    : gmap string (gmap string cert) * option error :=
  match read (CertFile c), read (KeyFile c) with
  | Ok certFile, Ok keyFile =>
      match x509KeyPair certFile keyFile with
      | Ok tlsCert =>
          (<[store := <[certFile := tlsCert]>
                        (default ∅ (storesCertificates !! store))]>
             storesCertificates, None)
      | Err err => (storesCertificates, Some err)
      end
  | Err err, _ => (storesCertificates, Some err)
  | _, Err err => (storesCertificates, Some err)
  end.

Definition versions : gmap string Z :=
  {[ "VersionTLS10" := 0x0301; "VersionTLS11" := 0x0302;
     "VersionTLS12" := 0x0303; "VersionTLS13" := 0x0304 ]}.

Definition cipherSuites : gmap string Z :=
  {[ "TLS_ECDHE_ECDSA_WITH_AES_128_GCM_SHA256" :=
       TLS_ECDHE_ECDSA_WITH_AES_128_GCM_SHA256;
     "TLS_ECDHE_RSA_WITH_AES_128_GCM_SHA256" :=
       TLS_ECDHE_RSA_WITH_AES_128_GCM_SHA256;
     "TLS_ECDHE_RSA_WITH_CHACHA20_POLY1305" :=
       TLS_ECDHE_RSA_WITH_CHACHA20_POLY1305;
     "TLS_ECDHE_ECDSA_WITH_CHACHA20_POLY1305" :=
       TLS_ECDHE_ECDSA_WITH_CHACHA20_POLY1305;
     "TLS_AES_128_GCM_SHA256" := TLS_AES_128_GCM_SHA256;
     "TLS_CHACHA20_POLY1305_SHA256" := TLS_CHACHA20_POLY1305_SHA256 ]}.

Definition curveIDs : gmap string Z :=
  {[ "CurveP256" := 23; "CurveP384" := 24; "CurveP521" := 25;
     "X25519" := 29 ]}.

Definition collaborators : Collaborators cert (list string) string :=
  {| Read := read;
     IsPath := isPath;
     X509KeyPair := x509KeyPair;
     NewCertPool := [];
     AppendCertsFromPEM := appendCertsFromPEM;
     GetCertificateType := getCertificateType;
     generate_DefaultCertificate := generateDefault;
     getCertTypeForClientHello := certTypeForClientHello;
     GetBestCertificate := bestCertificate;
     AppendCertificate := appendCertificate;
     CanonicalDomain := fun domain => domain;
     MinVersion := versions;
     MaxVersion := versions;
     CipherSuites := cipherSuites;
     CurveIDs := curveIDs |}.

(** The state around a manager fresh from [NewManager]. *)
Definition initial : State cert string :=
  {| heap := []; manager := NewManager |}.

(** Options and store definitions as a configuration source would send
    them. *)
Definition options (ciphers : option (list string))
    (caFiles : list FileOrContent) (clientAuthType : string)
    (sniStrict : bool) : Options :=
  {| Options_MinVersion := "VersionTLS12";
     Options_MaxVersion := "";
     Options_CipherSuites := ciphers;
     Options_CurvePreferences := Some ["CurveP521"; "CurveP384"];
     Options_ClientAuth :=
       {| CAFiles := caFiles; ClientAuthType := clientAuthType |};
     Options_SniStrict := sniStrict |}.

Definition caFile : FileOrContent :=
  "-----BEGIN CERTIFICATE-----MIIBhTCCASugAwIBAgIQ-----END CERTIFICATE-----".

Definition fourSuites : Options :=
  options (Some ["TLS_AES_128_GCM_SHA256"; "TLS_CHACHA20_POLY1305_SHA256";
                 "TLS_ECDHE_RSA_WITH_AES_128_GCM_SHA256";
                 "TLS_ECDHE_RSA_WITH_CHACHA20_POLY1305"]) [] "" false.

Definition withoutChaCha : Options :=
  options (Some ["TLS_AES_128_GCM_SHA256";
                 "TLS_ECDHE_RSA_WITH_AES_128_GCM_SHA256"]) [] "" false.

Definition strictOptions : Options := options None [] "" true.

Definition verifyWithoutCA : Options :=
  options None [] "RequireAndVerifyClientCert" false.

Definition unknownPolicy : Options :=
  options (Some ["TLS_AES_128_GCM_SHA256"]) [] "RequireClientCert" false.

Definition caOnly : Options := options None [caFile] "" false.

Definition caWithUnknownCipher : Options :=
  options (Some ["TLS_NULL_WITH_NULL_NULL"]) [caFile] "" false.

Definition rsaOnlyStore : Store :=
  {| Store_DefaultCertificate :=
       Some {| CertFile := "default.example.com"; KeyFile := "rsa key" |};
     Store_DefaultCertificates := [] |}.

Definition twoRSAStore : Store :=
  {| Store_DefaultCertificate := None;
     Store_DefaultCertificates :=
       [ {| CertFile := "first.example.com"; KeyFile := "rsa key" |};
         {| CertFile := "second.example.com"; KeyFile := "rsa key" |} ] |}.

(** Client hellos for a host no certificate was issued for. *)
Definition chachaHello : ClientHelloInfo :=
  {| Hello_ServerName := "foo.example.com";
     Hello_CipherSuites :=
       Some [TLS_CHACHA20_POLY1305_SHA256; TLS_AES_128_GCM_SHA256] |}.

Definition aesHello : ClientHelloInfo :=
  {| Hello_ServerName := "foo.example.com";
     Hello_CipherSuites :=
       Some [TLS_ECDHE_RSA_WITH_AES_128_GCM_SHA256; TLS_AES_128_GCM_SHA256] |}.

(** The state after one reload installing [tlsOption] as the default
    options, and what [Get] then returns and leaves. *)
Definition reloaded (tlsOption : Options) : State cert string :=
  UpdateConfigs (collab := collaborators) initial ∅
    {[ "default" := tlsOption ]} [].

Definition closureOf (s : State cert string) : Closure (list string) :=
  (Get (collab := collaborators) s "default" "default").1.1.

Definition afterGet (s : State cert string) : State cert string :=
  (Get (collab := collaborators) s "default" "default").2.

(** A manager whose ALPN-challenge provider is out of order. *)
Definition alpnUnavailable : error :=
  ErrExternal "tls-alpn-01: challenge store unavailable".

Definition withFailingAlpn : State cert string :=
  {| heap := [];
     manager :=
       {| storesConfig := ∅;
          stores := ∅;
          configs := {[ "default" := DefaultTLSOptions ]};
          certs := [];
          TLSAlpnGetter := Some (fun _ => Err alpnUnavailable) |} |}.

(** The configuration [buildTLSConfig] makes of options, the zero
    configuration if it fails. *)
Definition configOf (tlsOption : Options) : tls_Config (list string) :=
  match buildTLSConfig (collab := collaborators) tlsOption with
  | Ok conf => conf
  | Err _ => zeroConfig
  end.

Definition caWithNoClientCert : Options :=
  options None [caFile] "NoClientCert" false.

Definition secondCipherUnknown : Options :=
  options (Some ["TLS_AES_128_GCM_SHA256"; "TLS_NULL_WITH_NULL_NULL";
                 "TLS_CHACHA20_POLY1305_SHA256"]) [] "" false.

Definition unknownCurve : Options :=
  {| Options_MinVersion := "";
     Options_MaxVersion := "VersionTLS13";
     Options_CipherSuites := Some ["TLS_AES_128_GCM_SHA256"];
     Options_CurvePreferences := Some ["CurveP256"; "secp256k1"; "X25519"];
     Options_ClientAuth := {| CAFiles := []; ClientAuthType := "" |};
     Options_SniStrict := false |}.

Definition secondCAInvalid : Options :=
  options None [caFile; "not a certificate"; "/missing.pem"] "" false.

Definition oneChaCha : Options :=
  options (Some ["TLS_AES_128_GCM_SHA256"; "TLS_CHACHA20_POLY1305_SHA256";
                 "TLS_ECDHE_RSA_WITH_AES_128_GCM_SHA256"]) [] "" false.

Definition ecOnlyStore : Store :=
  {| Store_DefaultCertificate :=
       Some {| CertFile := "ignored.example.com"; KeyFile := "rsa key" |};
     Store_DefaultCertificates :=
       [ {| CertFile := "ec.example.com"; KeyFile := "ecdsa key" |} ] |}.

Definition secondKeyUnreadable : list Certificate :=
  [ {| CertFile := "first.example.com"; KeyFile := "rsa key" |};
    {| CertFile := "second.example.com"; KeyFile := "/missing.pem" |};
    {| CertFile := "third.example.com"; KeyFile := "rsa key" |} ].

(** The RSA generation fails, the EC one works. *)
Definition withoutRSAGenerator : Collaborators cert (list string) string :=
  {| Read := read;
     IsPath := isPath;
     X509KeyPair := x509KeyPair;
     NewCertPool := [];
     AppendCertsFromPEM := appendCertsFromPEM;
     GetCertificateType := getCertificateType;
     generate_DefaultCertificate := fun t =>
       match t with
       | RSA => Err (ErrExternal "rsa: key generation failed")
       | EC => generateDefault EC
       end;
     getCertTypeForClientHello := certTypeForClientHello;
     GetBestCertificate := bestCertificate;
     AppendCertificate := appendCertificate;
     CanonicalDomain := fun domain => domain;
     MinVersion := versions;
     MaxVersion := versions;
     CipherSuites := cipherSuites;
     CurveIDs := curveIDs |}.

End Sample.

(** * Properties *)

Section Properties.

Context {tls_Certificate CertPool : Type}.
Context `{Countable certificateKey}.
Context {collab : Collaborators tls_Certificate CertPool certificateKey}.

Abbreviation Config := (tls_Config CertPool).

(** ** [buildTLSConfig] *)

Lemma resolveCipherSuites_ok (ciphers : list string) (suites : list Z) :
  Forall (fun cipher => is_Some (CipherSuites !! cipher)) ciphers →
  ∃ resolved,
    resolveCipherSuites ciphers suites = Ok (suites ++ resolved)
    ∧ Forall2 (fun cipher id => CipherSuites !! cipher = Some id)
        ciphers resolved.
Proof.
  intros Hall. revert suites.
  induction Hall as [|cipher rest [id Hid] _ IH]; intros suites.
  - exists []. split; [by rewrite app_nil_r | constructor].
  - destruct (IH (suites ++ [id])) as (resolved & Hres & Hrel).
    exists (id :: resolved). split.
    + cbn. rewrite Hid, Hres. by rewrite <- app_assoc.
    + by constructor.
Qed.

Lemma resolveCurvePreferences_ok (curves : list string) (ids : list Z) :
  Forall (fun curve => is_Some (CurveIDs !! curve)) curves →
  ∃ resolved,
    resolveCurvePreferences curves ids = Ok (ids ++ resolved)
    ∧ Forall2 (fun curve id => CurveIDs !! curve = Some id) curves resolved.
Proof.
  intros Hall. revert ids.
  induction Hall as [|curve rest [id Hid] _ IH]; intros ids.
  - exists []. split; [by rewrite app_nil_r | constructor].
  - destruct (IH (ids ++ [id])) as (resolved & Hres & Hrel).
    exists (id :: resolved). split.
    + cbn. rewrite Hid, Hres. by rewrite <- app_assoc.
    + by constructor.
Qed.

(** What each stage of [buildTLSConfig] leaves untouched. *)

Lemma clientCAsStage_fields (tlsOption : Options) (conf conf' : Config) :
  clientCAsStage tlsOption conf = Ok conf' →
  Config_CipherSuites conf' = Config_CipherSuites conf.
Proof.
  unfold clientCAsStage. case_match; [|by intros [= <-]].
  destruct (loadCAFiles _ _); cbn; [by intros [= <-] | done].
Qed.

Lemma clientAuthTypeStage_fields (tlsOption : Options) (conf conf' : Config) :
  clientAuthTypeStage tlsOption conf = Ok conf' →
  Config_CipherSuites conf' = Config_CipherSuites conf
  ∧ Config_ClientCAs conf' = Config_ClientCAs conf.
Proof.
  unfold clientAuthTypeStage.
  repeat case_match; intros [= <-] || discriminate; done.
Qed.

Lemma versionStages_fields (tlsOption : Options) (conf : Config) :
  let conf' := maxVersionStage tlsOption (minVersionStage tlsOption conf) in
  Config_CipherSuites conf' = Config_CipherSuites conf
  ∧ Config_ClientCAs conf' = Config_ClientCAs conf
  ∧ Config_ClientAuth conf' = Config_ClientAuth conf.
Proof.
  unfold maxVersionStage, minVersionStage. by repeat case_match.
Qed.

Lemma cipherSuitesStage_ok (tlsOption : Options) (conf : Config) :
  Forall (fun cipher => is_Some (CipherSuites !! cipher))
    (default [] (Options_CipherSuites tlsOption)) →
  ∃ conf',
    cipherSuitesStage tlsOption conf = Ok conf'
    ∧ Config_ClientCAs conf' = Config_ClientCAs conf
    ∧ Config_ClientAuth conf' = Config_ClientAuth conf
    ∧ match Options_CipherSuites tlsOption with
      | Some ciphers =>
          ∃ suites, Config_CipherSuites conf' = Some suites
            ∧ Forall2 (fun cipher id => CipherSuites !! cipher = Some id)
                ciphers suites
      | None => Config_CipherSuites conf' = Config_CipherSuites conf
      end.
Proof.
  unfold cipherSuitesStage. intros Hall.
  destruct (Options_CipherSuites tlsOption) as [ciphers|]; cbn in *.
  - destruct (resolveCipherSuites_ok ciphers [] Hall) as (resolved & -> & Hrel).
    cbn. eexists. split_and!; [done..|]. by exists resolved.
  - by exists conf.
Qed.

Lemma curvePreferencesStage_ok (tlsOption : Options) (conf : Config) :
  Forall (fun curve => is_Some (CurveIDs !! curve))
    (default [] (Options_CurvePreferences tlsOption)) →
  ∃ conf',
    curvePreferencesStage tlsOption conf = Ok conf'
    ∧ Config_ClientCAs conf' = Config_ClientCAs conf
    ∧ Config_ClientAuth conf' = Config_ClientAuth conf
    ∧ Config_CipherSuites conf' = Config_CipherSuites conf.
Proof.
  unfold curvePreferencesStage. intros Hall.
  destruct (Options_CurvePreferences tlsOption) as [curves|]; cbn in *.
  - destruct (resolveCurvePreferences_ok curves [] Hall) as (ids & -> & _).
    cbn. by eexists.
  - by exists conf.
Qed.

(** C7: an Options value whose client-auth policy is verify-if-given or
    require-and-verify and which names no CA file makes [buildTLSConfig]
    fail with the "CAFiles is required" error; no configuration is
    returned. *)
Theorem buildTLSConfig_verifying_policy_requires_CAFiles
    (tlsOption : Options) :
  CAFiles (Options_ClientAuth tlsOption) = [] →
  ClientAuthType (Options_ClientAuth tlsOption) = "VerifyClientCertIfGiven"
  ∨ ClientAuthType (Options_ClientAuth tlsOption)
    = "RequireAndVerifyClientCert" →
  buildTLSConfig tlsOption
  = Err (ErrCAFilesRequired (ClientAuthType (Options_ClientAuth tlsOption))).
Proof.
  intros Hca Hpolicy.
  unfold buildTLSConfig, clientCAsStage. rewrite Hca. cbn.
  unfold clientAuthTypeStage.
  destruct Hpolicy as [-> | ->]; reflexivity.
Qed.

(** C8 (as amended): when every configured cipher-suite identifier is in the
    lookup table, the client-auth stages pass and every curve identifier is
    in the curve table, [buildTLSConfig] succeeds and the cipher list of the
    configuration is, position by position, the list of the constants the
    table gives for the configured identifiers. *)
Theorem buildTLSConfig_cipherSuites_in_order (tlsOption : Options) :
  Forall (fun cipher => is_Some (CipherSuites !! cipher))
    (default [] (Options_CipherSuites tlsOption)) →
  isOk (clientCAsStage tlsOption initialConfig
        ≫= clientAuthTypeStage tlsOption) = true →
  Forall (fun curve => is_Some (CurveIDs !! curve))
    (default [] (Options_CurvePreferences tlsOption)) →
  ∃ conf,
    buildTLSConfig tlsOption = Ok conf
    ∧ Forall2 (fun cipher id => CipherSuites !! cipher = Some id)
        (default [] (Options_CipherSuites tlsOption))
        (default [] (Config_CipherSuites conf)).
Proof.
  intros Hciphers Hauth Hcurves. unfold buildTLSConfig.
  destruct (clientCAsStage tlsOption initialConfig) as [conf1|] eqn:H1;
    [cbn in * | done].
  destruct (clientAuthTypeStage tlsOption conf1) as [conf2|] eqn:H2;
    [cbn | done].
  apply clientCAsStage_fields in H1.
  apply clientAuthTypeStage_fields in H2 as [H2 _].
  destruct (versionStages_fields tlsOption conf2) as (H3 & _).
  destruct (cipherSuitesStage_ok tlsOption
              (maxVersionStage tlsOption (minVersionStage tlsOption conf2))
              Hciphers) as (conf4 & -> & _ & _ & H4).
  cbn.
  destruct (curvePreferencesStage_ok tlsOption conf4 Hcurves)
    as (conf5 & -> & _ & _ & H5).
  exists conf5. split; [done|]. rewrite H5.
  destruct (Options_CipherSuites tlsOption) as [ciphers|]; cbn.
  - destruct H4 as (suites & -> & Hrel). done.
  - rewrite H4, H3, H2, H1. constructor.
Qed.

(** C9 (as amended): with at least one CA file, every CA file read and
    parsed, no client-auth policy string, and cipher-suite and curve
    identifiers that all resolve, [buildTLSConfig] returns a configuration
    whose client-auth policy is require-and-verify and whose trust pool is
    the one loaded from the CA files. *)
Theorem buildTLSConfig_CAFiles_alone_require_and_verify
    (tlsOption : Options) (pool : CertPool) :
  CAFiles (Options_ClientAuth tlsOption) ≠ [] →
  loadCAFiles (CAFiles (Options_ClientAuth tlsOption)) NewCertPool = Ok pool →
  ClientAuthType (Options_ClientAuth tlsOption) = "" →
  Forall (fun cipher => is_Some (CipherSuites !! cipher))
    (default [] (Options_CipherSuites tlsOption)) →
  Forall (fun curve => is_Some (CurveIDs !! curve))
    (default [] (Options_CurvePreferences tlsOption)) →
  ∃ conf,
    buildTLSConfig tlsOption = Ok conf
    ∧ Config_ClientAuth conf = RequireAndVerifyClientCert
    ∧ Config_ClientCAs conf = Some pool.
Proof.
  intros Hne Hload Hpolicy Hciphers Hcurves.
  unfold buildTLSConfig, clientCAsStage, clientAuthTypeStage.
  rewrite Hload, Hpolicy.
  destruct (CAFiles (Options_ClientAuth tlsOption)) as [|caFile rest];
    [done | cbn].
  set (conf2 := setClientAuth _ _).
  destruct (versionStages_fields tlsOption conf2) as (_ & Hcas & Hauth).
  destruct (cipherSuitesStage_ok tlsOption
              (maxVersionStage tlsOption (minVersionStage tlsOption conf2))
              Hciphers) as (conf4 & -> & Hcas4 & Hauth4 & _).
  cbn.
  destruct (curvePreferencesStage_ok tlsOption conf4 Hcurves)
    as (conf5 & -> & Hcas5 & Hauth5 & _).
  exists conf5. split_and!; [done | |].
  - by rewrite Hauth5, Hauth4, Hauth.
  - by rewrite Hcas5, Hcas4, Hcas.
Qed.

(** ** Default certificates of a store *)

Lemma hasRSADefault_existsb (defaults : list tls_Certificate) :
  hasRSADefault defaults = existsb (hasType RSA) defaults.
Proof.
  induction defaults as [|cert rest IH]; [done|].
  cbn. unfold hasType at 1.
  destruct (GetCertificateType cert) as [certType|]; [|done].
  by destruct (bool_decide (certType = RSA)).
Qed.

Lemma existsb_hasType (certType : CertificateType)
    (defaults : list tls_Certificate) :
  existsb (hasType certType) defaults = true ↔
  ∃ cert, cert ∈ defaults ∧ GetCertificateType cert = Ok certType.
Proof.
  rewrite existsb_exists. split.
  - intros (cert & Hin & Htype). exists cert.
    split; [by apply list_elem_of_In|].
    unfold hasType in Htype.
    destruct (GetCertificateType cert) as [t|]; [|done].
    by apply bool_decide_eq_true in Htype as ->.
  - intros (cert & Hin & Htype). exists cert.
    split; [by apply list_elem_of_In|].
    unfold hasType. rewrite Htype. by apply bool_decide_eq_true.
Qed.

Lemma firstOfType_is_Some (certType : CertificateType)
    (defaults : list tls_Certificate) :
  is_Some (firstOfType certType defaults) ↔
  existsb (hasType certType) defaults = true.
Proof.
  unfold firstOfType.
  induction defaults as [|cert rest IH]; cbn.
  - split; [by intros [? ?] | done].
  - destruct (hasType certType cert); cbn; [|done].
    split; [done | by eexists].
Qed.

Lemma firstOfType_Some (certType : CertificateType)
    (defaults : list tls_Certificate) (cert : tls_Certificate) :
  firstOfType certType defaults = Some cert →
  cert ∈ defaults ∧ GetCertificateType cert = Ok certType.
Proof.
  unfold firstOfType. intros Hhead.
  assert (In cert (List.filter (hasType certType) defaults)) as Hin.
  { destruct (List.filter _ _); [done|]. injection Hhead as ->. by left. }
  apply filter_In in Hin as [Hin Htype]. split; [by apply list_elem_of_In|].
  unfold hasType in Htype.
  destruct (GetCertificateType cert) as [t|]; [|done].
  by apply bool_decide_eq_true in Htype as ->.
Qed.

Lemma lastOfType_Some (certType : CertificateType)
    (defaults : list tls_Certificate) (cert : tls_Certificate) :
  lastOfType certType defaults = Some cert →
  cert ∈ defaults ∧ GetCertificateType cert = Ok certType.
Proof.
  unfold lastOfType. intros Hlast.
  assert (In cert (List.filter (hasType certType) defaults)) as Hin.
  { apply list_elem_of_In. apply last_Some in Hlast as [l ->].
    apply elem_of_app. right. by left. }
  apply filter_In in Hin as [Hin Htype]. split; [by apply list_elem_of_In|].
  unfold hasType in Htype.
  destruct (GetCertificateType cert) as [t|]; [|done].
  by apply bool_decide_eq_true in Htype as ->.
Qed.

Lemma lastOfType_is_Some (certType : CertificateType)
    (defaults : list tls_Certificate) :
  is_Some (lastOfType certType defaults) ↔
  existsb (hasType certType) defaults = true.
Proof.
  unfold lastOfType. rewrite last_is_Some.
  induction defaults as [|cert rest IH]; cbn; [done|].
  destruct (hasType certType cert); cbn; [done | exact IH].
Qed.

(** With RSA preferred the loop stops at the first RSA certificate; it never
    takes an EC one. *)
Lemma defaultCertificateLoop_RSA (defaults : list tls_Certificate)
    (matchingCert : option tls_Certificate) :
  defaultCertificateLoop RSA defaults matchingCert
  = match firstOfType RSA defaults with
    | Some cert => Some cert
    | None => matchingCert
    end.
Proof.
  unfold firstOfType.
  induction defaults as [|cert rest IH]; [done|].
  cbn. unfold hasType at 1.
  destruct (GetCertificateType cert) as [[]|]; cbn; [done | apply IH..].
Qed.

(** With EC preferred the loop stops at the first EC certificate; if there
    is none it ends with the RSA certificate it assigned last. *)
Lemma defaultCertificateLoop_EC (defaults : list tls_Certificate)
    (matchingCert : option tls_Certificate) :
  defaultCertificateLoop EC defaults matchingCert
  = match firstOfType EC defaults with
    | Some cert => Some cert
    | None =>
        match lastOfType RSA defaults with
        | Some cert => Some cert
        | None => matchingCert
        end
    end.
Proof.
  unfold firstOfType, lastOfType, hasType. revert matchingCert.
  induction defaults as [|cert rest IH]; intros matchingCert; [done|].
  cbn. destruct (GetCertificateType cert) as [[]|];
    repeat case_bool_decide; try done; cbn.
  rewrite IH, last_cons.
  destruct (head _); [done|]. by destruct (last _).
Qed.

(** A store built without error has an empty dynamic map and, with a sound
    generator, an RSA certificate among its defaults. *)
Lemma buildCertificateStore_ok (tlsStore : Store)
    (store : CertificateStore tls_Certificate certificateKey) :
  generatorSound →
  buildCertificateStore tlsStore = (store, None) →
  DynamicCerts store = ∅
  ∧ existsb (hasType RSA) (DefaultCertificates store) = true.
Proof.
  intros Hgen. unfold buildCertificateStore.
  destruct (configuredDefaults tlsStore) as [[defaults []]|] eqn:Hconf;
    [| |done]; cbn.
  - intros [= <-]. split; [done|]. cbn.
    unfold configuredDefaults in Hconf.
    destruct (0 <? _)%nat.
    { by destruct (buildDefaultCertificates _). }
    destruct (Store_DefaultCertificate tlsStore).
    { by destruct (buildDefaultCertificate _). }
    destruct (generate_DefaultCertificate RSA) as [rsaCert|] eqn:Hrsa; [|done].
    cbn in Hconf.
    destruct (generate_DefaultCertificate EC) as [ecCert|]; [|done].
    injection Hconf as <-. cbn. unfold hasType at 1.
    rewrite (Hgen _ _ Hrsa). by rewrite bool_decide_eq_true_2.
  - destruct (hasRSADefault defaults) eqn:Hhas; cbn.
    + intros [= <-]. split; [done|]. by rewrite <- hasRSADefault_existsb.
    + destruct (generate_DefaultCertificate RSA) as [cert|] eqn:Hrsa; [|done].
      intros [= <-]. split; [done|]. cbn.
      rewrite existsb_app. cbn. unfold hasType at 2.
      rewrite (Hgen _ _ Hrsa), bool_decide_eq_true_2 by done.
      by rewrite orb_true_r.
Qed.

(** C2 (as amended): after [buildCertificateStore] completes without error
    the default certificates contain an RSA-capable record; an EC-capable
    record is only assured for a store configured without default
    certificates, whose defaults are exactly the generated RSA certificate
    followed by the generated EC certificate. *)
Theorem buildCertificateStore_defaults_hold_RSA (tlsStore : Store)
    (store : CertificateStore tls_Certificate certificateKey) :
  generatorSound →
  buildCertificateStore tlsStore = (store, None) →
  (∃ cert, cert ∈ DefaultCertificates store
           ∧ GetCertificateType cert = Ok RSA)
  ∧ (Store_DefaultCertificates tlsStore = [] →
     Store_DefaultCertificate tlsStore = None →
     ∃ rsaCert ecCert,
       DefaultCertificates store = [rsaCert; ecCert]
       ∧ generate_DefaultCertificate RSA = Ok rsaCert
       ∧ generate_DefaultCertificate EC = Ok ecCert
       ∧ GetCertificateType rsaCert = Ok RSA
       ∧ GetCertificateType ecCert = Ok EC).
Proof.
  intros Hgen Hbuild. split.
  - apply existsb_hasType. by eapply buildCertificateStore_ok.
  - intros Hnone Hnil. revert Hbuild.
    unfold buildCertificateStore, configuredDefaults.
    rewrite Hnone, Hnil. cbn.
    destruct (generate_DefaultCertificate RSA) as [rsaCert|] eqn:Hrsa; [|done].
    cbn.
    destruct (generate_DefaultCertificate EC) as [ecCert|] eqn:Hec; [|done].
    cbn. intros [= <-]. exists rsaCert, ecCert. cbn.
    split_and!; [done.. | by apply Hgen | by apply Hgen].
Qed.

(** With an RSA certificate among the defaults the selection loop always
    ends on one of the defaults. *)
Lemma defaultCertificateLoop_elem (preferredType : CertificateType)
    (defaults : list tls_Certificate) :
  existsb (hasType RSA) defaults = true →
  ∃ cert, defaultCertificateLoop preferredType defaults None = Some cert
          ∧ cert ∈ defaults.
Proof.
  intros Hrsa. destruct preferredType.
  - rewrite defaultCertificateLoop_RSA.
    apply firstOfType_is_Some in Hrsa as [cert Hcert]. rewrite Hcert.
    exists cert. split; [done|]. by apply firstOfType_Some in Hcert as [? _].
  - rewrite defaultCertificateLoop_EC.
    destruct (firstOfType EC defaults) as [cert|] eqn:Hec.
    + exists cert. split; [done|]. by apply firstOfType_Some in Hec as [? _].
    + apply lastOfType_is_Some in Hrsa as [cert Hcert]. rewrite Hcert.
      exists cert. split; [done|]. by apply lastOfType_Some in Hcert as [? _].
Qed.

(** C3 (as amended): on the default certificates of a store built without
    error the fallback returns the first default of the hinted type; with an
    EC hint and no EC default it returns the last RSA default; with an RSA
    hint it never turns to an EC default. Such a store holds an RSA default,
    so the result is always one of the store's defaults, never nil. *)
Theorem defaultCertificate_of_built_store (tlsStore : Store)
    (store : CertificateStore tls_Certificate certificateKey)
    (preferredType : CertificateType) :
  generatorSound →
  buildCertificateStore tlsStore = (store, None) →
  defaultCertificateLoop preferredType (DefaultCertificates store) None
  = match preferredType with
    | RSA => firstOfType RSA (DefaultCertificates store)
    | EC =>
        match firstOfType EC (DefaultCertificates store) with
        | Some cert => Some cert
        | None => lastOfType RSA (DefaultCertificates store)
        end
    end
  ∧ ∃ cert,
      defaultCertificateLoop preferredType (DefaultCertificates store) None
      = Some cert
      ∧ cert ∈ DefaultCertificates store.
Proof.
  intros Hgen Hbuild.
  destruct (buildCertificateStore_ok _ _ Hgen Hbuild) as [_ Hrsa].
  split; [|by apply defaultCertificateLoop_elem].
  destruct preferredType.
  - rewrite defaultCertificateLoop_RSA. by destruct (firstOfType _ _).
  - rewrite defaultCertificateLoop_EC.
    destruct (firstOfType _ _); [done|]. by destruct (lastOfType _ _).
Qed.

(** ** The certificate hook *)

Lemma getStore_manager (s : State tls_Certificate certificateKey)
    (storeName : string) :
  configs (manager (getStore s storeName).2) = configs (manager s)
  ∧ TLSAlpnGetter (manager (getStore s storeName).2)
    = TLSAlpnGetter (manager s).
Proof.
  unfold getStore. destruct (stores (manager s) !! storeName); [done|].
  by destruct (buildCertificateStore zeroStore).
Qed.

Lemma Get_closure (s s' : State tls_Certificate certificateKey)
    (storeName configName : string) (c : Closure CertPool)
    (err : option error) :
  Get s storeName configName = ((c, err), s') →
  s' = (getStore s storeName).2
  ∧ closure_store c = (getStore s storeName).1
  ∧ closure_configName c = configName.
Proof.
  unfold Get. destruct (getStore s storeName) as [l s1].
  destruct (configs (manager s) !! configName) as [config|];
    [destruct (buildTLSConfig config)|]; by intros [= <- _ <-].
Qed.

(** C10: when the ALPN-challenge provider is configured and fails for the
    canonical form of the requested host name, the certificate hook returns
    that very error, whatever the captured store holds and whatever the
    options say about strict SNI. *)
Theorem GetCertificate_returns_alpn_error (c : Closure CertPool)
    (s : State tls_Certificate certificateKey) (clientHello : ClientHelloInfo)
    (getter : string → result (option tls_Certificate)) (err : error) :
  TLSAlpnGetter (manager s) = Some getter →
  getter (CanonicalDomain (Hello_ServerName clientHello)) = Err err →
  GetCertificate c s clientHello = Err err.
Proof.
  intros Hgetter Herr. unfold GetCertificate. by rewrite Hgetter, Herr.
Qed.



(** ** Store resolution *)

(** C5 (as amended): a store name absent from the registry is resolved, by
    [GetStore] and by [Get] alike, to a store object at a location not in
    use before, registered under that name, without any error for the store:
    it is [buildCertificateStore] of the zero store definition, with an empty
    dynamic map and, as default certificates, the generated RSA certificate
    followed by the generated EC certificate (none only if a generation
    fails). *)
Theorem getStore_unknown_name_builds_store
    (s : State tls_Certificate certificateKey) (storeName configName : string) :
  stores (manager s) !! storeName = None →
  ∃ store s',
    GetStore s storeName = (length (heap s), s')
    ∧ (Get s storeName configName).2 = s'
    ∧ closure_store (Get s storeName configName).1.1 = length (heap s)
    ∧ heap s !! length (heap s) = None
    ∧ heap s' !! length (heap s) = Some store
    ∧ stores (manager s') !! storeName = Some (length (heap s))
    ∧ store = (buildCertificateStore zeroStore).1
    ∧ DynamicCerts store = ∅
    ∧ DefaultCertificates store
      = match generate_DefaultCertificate RSA,
              generate_DefaultCertificate EC with
        | Ok rsaCert, Ok ecCert => [rsaCert; ecCert]
        | _, _ => []
        end.
Proof.
  intros Hnone.
  exists (buildCertificateStore zeroStore).1, (getStore s storeName).2.
  destruct (Get s storeName configName) as [[c err] s'] eqn:HGet.
  apply Get_closure in HGet as (-> & Hc & _). cbn. rewrite Hc. clear Hc.
  unfold GetStore, getStore. rewrite Hnone.
  destruct (buildCertificateStore zeroStore) as [store err'] eqn:Hbuild. cbn.
  split_and!; try done.
  - by apply lookup_ge_None_2.
  - by apply list_lookup_middle.
  - by rewrite lookup_insert_eq.
  - revert Hbuild. unfold buildCertificateStore, configuredDefaults. cbn.
    destruct (generate_DefaultCertificate RSA); cbn;
      [destruct (generate_DefaultCertificate EC); cbn|]; by intros [= <- _].
  - revert Hbuild. unfold buildCertificateStore, configuredDefaults. cbn.
    destruct (generate_DefaultCertificate RSA); cbn;
      [destruct (generate_DefaultCertificate EC); cbn|]; by intros [= <- _].
Qed.

(** ** What a reload leaves alone *)

Lemma getStore_allocatedFrom (n : nat)
    (s : State tls_Certificate certificateKey) (storeName : string) :
  allocatedFrom n s →
  allocatedFrom n (getStore s storeName).2
  ∧ (n ≤ (getStore s storeName).1 < length (heap (getStore s storeName).2))%nat
  ∧ (∀ l, (l < length (heap s))%nat →
          heap (getStore s storeName).2 !! l = heap s !! l).
Proof.
  intros [Hn Hreg]. unfold getStore.
  destruct (stores (manager s) !! storeName) as [l|] eqn:Hl; cbn.
  - split_and!; [done | by apply (Hreg storeName) .. | done].
  - destruct (buildCertificateStore zeroStore) as [store ?]. cbn.
    split_and!.
    + split; cbn; [rewrite length_app; lia|].
      intros name l. rewrite length_app. cbn.
      destruct (decide (storeName = name)) as [->|Hne].
      * rewrite lookup_insert_eq. intros [= <-]. lia.
      * rewrite lookup_insert_ne by done. intros Hname.
        apply Hreg in Hname. lia.
    + done.
    + rewrite length_app. cbn. lia.
    + intros l Hlt. by apply lookup_app_l.
Qed.

Lemma setStoreCertificates_allocatedFrom (n : nat)
    (s : State tls_Certificate certificateKey)
    (entry : string * gmap certificateKey tls_Certificate) :
  allocatedFrom n s →
  allocatedFrom n (setStoreCertificates s entry)
  ∧ (∀ l, (l < n)%nat → heap (setStoreCertificates s entry) !! l = heap s !! l)
  ∧ configs (manager (setStoreCertificates s entry)) = configs (manager s)
  ∧ TLSAlpnGetter (manager (setStoreCertificates s entry))
    = TLSAlpnGetter (manager s).
Proof.
  intros Halloc. unfold setStoreCertificates.
  destruct (getStore_allocatedFrom n s entry.1 Halloc)
    as ([Hn Hreg] & Hl & Hprefix).
  destruct (getStore_manager s entry.1) as [Hconfigs Hgetter].
  destruct Halloc as [Hn0 _].
  destruct (getStore s entry.1) as [l s']. cbn in *.
  split_and!; [| | done..].
  - split; cbn; rewrite length_alter; done.
  - intros a Ha. unfold loc in *.
    rewrite list_lookup_alter_ne by lia. apply Hprefix. lia.
Qed.

Lemma fold_setStoreCertificates_allocatedFrom (n : nat)
    (entries : list (string * gmap certificateKey tls_Certificate))
    (s : State tls_Certificate certificateKey) :
  allocatedFrom n s →
  let s' := fold_left setStoreCertificates entries s in
  allocatedFrom n s'
  ∧ (∀ l, (l < n)%nat → heap s' !! l = heap s !! l)
  ∧ configs (manager s') = configs (manager s)
  ∧ TLSAlpnGetter (manager s') = TLSAlpnGetter (manager s).
Proof.
  revert s. induction entries as [|entry rest IH]; intros s Halloc; [done|].
  cbn.
  destruct (setStoreCertificates_allocatedFrom n s entry Halloc)
    as (Halloc1 & Hprefix1 & Hconfigs1 & Hgetter1).
  destruct (IH _ Halloc1) as (Halloc2 & Hprefix2 & Hconfigs2 & Hgetter2).
  split_and!; [done | | congruence..].
  intros l Hl. by rewrite Hprefix2, Hprefix1.
Qed.

Lemma fold_rebuildStore_allocatedFrom (n : nat)
    (entries : list (string * Store))
    (h : list (CertificateStore tls_Certificate certificateKey))
    (registry : gmap string loc) :
  (n ≤ length h)%nat →
  (∀ storeName l, registry !! storeName = Some l → (n ≤ l < length h)%nat) →
  let r := fold_left rebuildStore entries (h, registry) in
  (n ≤ length r.1)%nat
  ∧ (∀ storeName l, r.2 !! storeName = Some l → (n ≤ l < length r.1)%nat)
  ∧ (∀ l, (l < n)%nat → r.1 !! l = h !! l).
Proof.
  revert h registry.
  induction entries as [|entry rest IH]; intros h registry Hn Hreg; [done|].
  cbn. destruct (buildCertificateStore entry.2) as [store [err|]].
  { by apply IH. }
  destruct (IH (h ++ [store]) (<[entry.1 := length h]> registry))
    as (Hn' & Hreg' & Hprefix').
  - rewrite length_app. lia.
  - intros name l. rewrite length_app. cbn.
    destruct (decide (entry.1 = name)) as [->|Hne].
    + rewrite lookup_insert_eq. intros [= <-]. lia.
    + rewrite lookup_insert_ne by done. intros Hname.
      apply Hreg in Hname. lia.
  - split_and!; [done..|]. intros l Hl.
    rewrite Hprefix' by done. apply lookup_app_l. lia.
Qed.

(** A reload registers only store objects it has allocated itself, keeps
    every older store object as it was, installs the given options and keeps
    the ALPN provider. *)
Lemma UpdateConfigs_frame (s : State tls_Certificate certificateKey)
    (stores_ : gmap string Store) (configs_ : gmap string Options)
    (certs_ : list CertAndStores) :
  let s' := UpdateConfigs s stores_ configs_ certs_ in
  allocatedFrom (length (heap s)) s'
  ∧ (∀ l, (l < length (heap s))%nat → heap s' !! l = heap s !! l)
  ∧ configs (manager s') = configs_
  ∧ TLSAlpnGetter (manager s') = TLSAlpnGetter (manager s).
Proof.
  unfold UpdateConfigs.
  destruct (fold_rebuildStore_allocatedFrom (length (heap s))
              (map_to_list stores_) (heap s) ∅)
    as (Hn & Hreg & Hprefix); [done | by intros ?? | ].
  destruct (fold_left rebuildStore _ _) as [h registry]. cbn in *.
  match goal with
  | |- context [fold_left setStoreCertificates ?entries ?s1] =>
      destruct (fold_setStoreCertificates_allocatedFrom (length (heap s))
                  entries s1)
        as (Halloc2 & Hprefix2 & Hconfigs2 & Hgetter2); [by split|]
  end.
  cbn in *. split_and!; [done | | done..].
  intros l Hl. by rewrite Hprefix2, Hprefix.
Qed.

Lemma allocatedFrom_wellFormed (n : nat)
    (s : State tls_Certificate certificateKey) :
  allocatedFrom n s → wellFormed s.
Proof. intros [_ Hreg] name l Hl. by apply Hreg in Hl as [_ ?]. Qed.

Lemma wellFormed_allocatedFrom (s : State tls_Certificate certificateKey) :
  wellFormed s → allocatedFrom 0 s.
Proof.
  intros Hwf. split; [lia|]. intros name l Hl. apply Hwf in Hl. lia.
Qed.

(** [Get] keeps the registry well formed and captures a pointer to a store
    object. *)
Lemma Get_wellFormed (s s' : State tls_Certificate certificateKey)
    (storeName configName : string) (c : Closure CertPool)
    (err : option error) :
  wellFormed s →
  Get s storeName configName = ((c, err), s') →
  wellFormed s' ∧ (closure_store c < length (heap s'))%nat.
Proof.
  intros Hwf HGet. apply Get_closure in HGet as (-> & -> & _).
  destruct (getStore_allocatedFrom 0 s storeName
              (wellFormed_allocatedFrom _ Hwf)) as (Halloc & Hl & _).
  split; [by eapply allocatedFrom_wellFormed | lia].
Qed.

Lemma UpdateConfigs_wellFormed (s : State tls_Certificate certificateKey)
    (stores_ : gmap string Store) (configs_ : gmap string Options)
    (certs_ : list CertAndStores) :
  wellFormed (UpdateConfigs s stores_ configs_ certs_).
Proof.
  destruct (UpdateConfigs_frame s stores_ configs_ certs_) as [Halloc _].
  by eapply allocatedFrom_wellFormed.
Qed.

(** The hooks of a closure after a reload: the configuration hook does not
    read the state at all, and the certificate hook gives the same answer
    provided the reload installs, under the captured options name, the same
    [SniStrict] flag as before. The flag itself is read from the registry at
    handshake time. *)
Lemma GetCertificate_after_UpdateConfigs (c : Closure CertPool)
    (s : State tls_Certificate certificateKey)
    (stores_ : gmap string Store) (configs_ : gmap string Options)
    (certs_ : list CertAndStores) (clientHello : ClientHelloInfo) :
  (closure_store c < length (heap s))%nat →
  Options_SniStrict
    (default DefaultTLSOptions (configs_ !! closure_configName c))
  = sniStrictOf (manager s) (closure_configName c) →
  GetCertificate c (UpdateConfigs s stores_ configs_ certs_) clientHello
  = GetCertificate c s clientHello.
Proof.
  intros Hl Hstrict.
  destruct (UpdateConfigs_frame s stores_ configs_ certs_)
    as (_ & Hprefix & Hconfigs & Hgetter).
  unfold GetCertificate, deref, sniStrictOf in *.
  by rewrite Hgetter, Hprefix, Hconfigs, Hstrict.
Qed.

(** ** Cipher adaptation *)

Lemma collectForceCiphers_filter (suites forceCiphers : list Z) :
  collectForceCiphers suites forceCiphers
  = forceCiphers ++ List.filter isChaChaCipherSuite suites.
Proof.
  revert forceCiphers.
  induction suites as [|cipherSuite rest IH]; intros forceCiphers; cbn.
  - by rewrite app_nil_r.
  - rewrite IH. unfold isChaChaCipherSuite at 2.
    destruct (_ || _); [by rewrite <- app_assoc | done].
Qed.

(** The inner loop appends the configured suite once per forced suite it
    passes. *)
Lemma innerCipherSuitesLoop_replicate (cipherSuite : Z)
    (forceCiphers configCipherSuites : list Z) :
  innerCipherSuitesLoop cipherSuite forceCiphers configCipherSuites
  = configCipherSuites
    ++ replicate (forcedBefore cipherSuite forceCiphers) cipherSuite.
Proof.
  revert configCipherSuites.
  induction forceCiphers as [|forced rest IH]; intros configCipherSuites; cbn.
  - by rewrite app_nil_r.
  - destruct (forced =? cipherSuite); cbn; [by rewrite app_nil_r|].
    rewrite IH. by rewrite <- app_assoc.
Qed.

Lemma newCipherSuitesLoop_concat (suites forceCiphers configCipherSuites : list Z) :
  newCipherSuitesLoop suites forceCiphers configCipherSuites
  = configCipherSuites
    ++ concat ((fun cipherSuite =>
                  replicate (forcedBefore cipherSuite forceCiphers) cipherSuite)
               <$> suites).
Proof.
  revert configCipherSuites.
  induction suites as [|cipherSuite rest IH]; intros configCipherSuites; cbn.
  - by rewrite app_nil_r.
  - rewrite IH, innerCipherSuitesLoop_replicate. by rewrite <- app_assoc.
Qed.

(** The list the hook installs for a client whose first suite is a ChaCha20
    one: the configured ChaCha20 suites, then every configured suite as many
    times as there are forced suites before its own first occurrence among
    them. *)
Lemma GetConfigForClient_chacha_first (tlsConfig : Config)
    (clientHello : ClientHelloInfo) (configured offered : list Z) (first : Z) :
  Config_CipherSuites tlsConfig = Some configured →
  configured ≠ [] →
  Hello_CipherSuites clientHello = Some (first :: offered) →
  isChaChaCipherSuite first = true →
  Config_CipherSuites (GetConfigForClient tlsConfig clientHello)
  = Some (List.filter isChaChaCipherSuite configured
          ++ concat ((fun cipherSuite =>
                        replicate
                          (forcedBefore cipherSuite
                             (List.filter isChaChaCipherSuite configured))
                          cipherSuite)
                     <$> configured)).
Proof.
  intros Hconf Hne Hhello Hfirst. unfold GetConfigForClient.
  rewrite Hconf, Hhello, Hfirst.
  assert ((0 <? length configured)%nat = true) as ->.
  { destruct configured; [done | reflexivity]. }
  cbn [Config_CipherSuites setCipherSuites].
  by rewrite newCipherSuitesLoop_concat, collectForceCiphers_filter.
Qed.

(** For any other client the hook returns the base configuration as it
    is. *)
Lemma GetConfigForClient_unchanged (tlsConfig : Config)
    (clientHello : ClientHelloInfo) :
  match Hello_CipherSuites clientHello with
  | Some (first :: _) => isChaChaCipherSuite first = false
  | _ => True
  end →
  GetConfigForClient tlsConfig clientHello = tlsConfig.
Proof.
  unfold GetConfigForClient.
  destruct (Config_CipherSuites tlsConfig) as [configured|]; [|done].
  destruct (0 <? length configured)%nat; [|done].
  destruct (Hello_CipherSuites clientHello) as [[|first ?]|]; [done| |done].
  by intros ->.
Qed.

(** When exactly one configured suite is a ChaCha20 one, the hook does
    produce the ChaCha20-first order. *)
Lemma GetConfigForClient_single_chacha (tlsConfig : Config)
    (clientHello : ClientHelloInfo) (configured offered : list Z)
    (first forced : Z) :
  Config_CipherSuites tlsConfig = Some configured →
  List.filter isChaChaCipherSuite configured = [forced] →
  Hello_CipherSuites clientHello = Some (first :: offered) →
  isChaChaCipherSuite first = true →
  Config_CipherSuites (GetConfigForClient tlsConfig clientHello)
  = Some (chachaFirst configured).
Proof.
  intros Hconf Hsingle Hhello Hfirst.
  rewrite (GetConfigForClient_chacha_first _ _ configured offered first);
    [|done | by intros -> | done..].
  unfold chachaFirst. rewrite Hsingle. do 2 f_equal.
  assert (∀ c, In c configured → isChaChaCipherSuite c = true → c = forced)
    as Honly.
  { intros c Hin Hc.
    assert (In c (List.filter isChaChaCipherSuite configured)) as Hc'
      by by apply filter_In.
    rewrite Hsingle in Hc'. by destruct Hc' as [->|[]]. }
  assert (isChaChaCipherSuite forced = true) as Hforced.
  { assert (In forced (List.filter isChaChaCipherSuite configured)) as Hin
      by (rewrite Hsingle; by left).
    by apply filter_In in Hin as [_ ?]. }
  clear Hsingle Hconf.
  induction configured as [|c rest IH]; [done|].
  cbn [fmap list_fmap concat List.filter].
  rewrite IH by (intros; apply Honly; [by right | done]).
  cbn [forcedBefore].
  destruct (Z.eqb_spec forced c) as [<-|Hne]; cbn.
  - by rewrite Hforced.
  - destruct (isChaChaCipherSuite c) eqn:Hc; [|done].
    exfalso. apply Hne. symmetry. apply Honly; [by left | done].
Qed.

End Properties.

(** * Further properties of the code *)

Section Coverage.

Context {tls_Certificate CertPool : Type}.
Context `{Countable certificateKey}.
Context {collab : Collaborators tls_Certificate CertPool certificateKey}.

Abbreviation Config := (tls_Config CertPool).

(** ** [buildTLSConfig], stage by stage *)

Lemma buildTLSConfig_stages (tlsOption : Options) (conf : Config) :
  buildTLSConfig tlsOption = Ok conf →
  ∃ conf1 conf2 conf4,
    clientCAsStage tlsOption initialConfig = Ok conf1
    ∧ clientAuthTypeStage tlsOption conf1 = Ok conf2
    ∧ cipherSuitesStage tlsOption
        (maxVersionStage tlsOption (minVersionStage tlsOption conf2))
      = Ok conf4
    ∧ curvePreferencesStage tlsOption conf4 = Ok conf.
Proof.
  unfold buildTLSConfig.
  destruct (clientCAsStage _ _) as [conf1|] eqn:H1; cbn; [|done].
  destruct (clientAuthTypeStage _ _) as [conf2|] eqn:H2; cbn; [|done].
  destruct (cipherSuitesStage _ _) as [conf4|] eqn:H4; cbn; [|done].
  intros Hcurves. by exists conf1, conf2, conf4.
Qed.

Lemma clientCAsStage_Ok (tlsOption : Options) (conf conf' : Config) :
  clientCAsStage tlsOption conf = Ok conf' →
  (CAFiles (Options_ClientAuth tlsOption) = [] ∧ conf' = conf)
  ∨ (CAFiles (Options_ClientAuth tlsOption) ≠ []
     ∧ ∃ pool,
         loadCAFiles (CAFiles (Options_ClientAuth tlsOption)) NewCertPool
         = Ok pool
         ∧ conf' = setClientAuth (setClientCAs conf pool)
                     RequireAndVerifyClientCert).
Proof.
  unfold clientCAsStage.
  destruct (CAFiles (Options_ClientAuth tlsOption)) as [|caFile rest] eqn:Hca.
  - intros [= <-]. by left.
  - destruct (loadCAFiles _ _) as [pool|]; [|done].
    intros [= <-]. right. split; [done|]. by exists pool.
Qed.

Lemma clientAuthTypeStage_Ok (tlsOption : Options) (conf conf' : Config) :
  clientAuthTypeStage tlsOption conf = Ok conf' →
  (ClientAuthType (Options_ClientAuth tlsOption) = "" ∧ conf' = conf)
  ∨ (ClientAuthType (Options_ClientAuth tlsOption) ≠ ""
     ∧ ∃ policy,
         policyOf (ClientAuthType (Options_ClientAuth tlsOption)) = Some policy
         ∧ (verifies policy = true → is_Some (Config_ClientCAs conf))
         ∧ conf' = setClientAuth conf policy).
Proof.
  unfold clientAuthTypeStage, policyOf.
  destruct (ClientAuthType (Options_ClientAuth tlsOption)) as [|a t] eqn:Ht.
  { intros [= <-]. by left. }
  rewrite <- Ht. replace (0 <? String.length _)%nat with true by by rewrite Ht.
  intros Hstage. right. split; [by rewrite Ht|].
  destruct (Config_ClientCAs conf) as [pool|] eqn:Hcas; cbn in Hstage.
  - repeat case_match; try done; injection Hstage as <-;
      eexists; (split_and!; [done | by eexists | done]).
  - repeat case_match; try done; injection Hstage as <-;
      eexists; (split_and!; [done | done | done]).
Qed.

Lemma resolveCipherSuites_Ok (ciphers : list string) (suites result : list Z) :
  resolveCipherSuites ciphers suites = Ok result →
  ∃ resolved,
    result = suites ++ resolved
    ∧ Forall2 (fun cipher id => CipherSuites !! cipher = Some id)
        ciphers resolved.
Proof.
  revert suites. induction ciphers as [|cipher rest IH]; intros suites; cbn.
  - intros [= <-]. exists []. by rewrite app_nil_r.
  - destruct (CipherSuites !! cipher) as [id|] eqn:Hid; [|done].
    intros (resolved & -> & Hrel)%IH. exists (id :: resolved).
    split; [by rewrite <- app_assoc | by constructor].
Qed.

Lemma resolveCurvePreferences_Ok (curves : list string) (ids result : list Z) :
  resolveCurvePreferences curves ids = Ok result →
  ∃ resolved,
    result = ids ++ resolved
    ∧ Forall2 (fun curve id => CurveIDs !! curve = Some id) curves resolved.
Proof.
  revert ids. induction curves as [|curve rest IH]; intros ids; cbn.
  - intros [= <-]. exists []. by rewrite app_nil_r.
  - destruct (CurveIDs !! curve) as [id|] eqn:Hid; [|done].
    intros (resolved & -> & Hrel)%IH. exists (id :: resolved).
    split; [by rewrite <- app_assoc | by constructor].
Qed.

Lemma resolveCipherSuites_first_unknown (known unknown : list string)
    (cipher : string) (suites : list Z) :
  Forall (fun cipher => is_Some (CipherSuites !! cipher)) known →
  CipherSuites !! cipher = None →
  resolveCipherSuites (known ++ cipher :: unknown) suites
  = Err (ErrInvalidCipherSuite cipher).
Proof.
  intros Hknown Hcipher. revert suites.
  induction Hknown as [|first rest [id Hid] _ IH]; intros suites; cbn.
  - by rewrite Hcipher.
  - rewrite Hid. apply IH.
Qed.

Lemma resolveCurvePreferences_first_unknown (known unknown : list string)
    (curve : string) (ids : list Z) :
  Forall (fun curve => is_Some (CurveIDs !! curve)) known →
  CurveIDs !! curve = None →
  resolveCurvePreferences (known ++ curve :: unknown) ids
  = Err (ErrInvalidCurveID curve).
Proof.
  intros Hknown Hcurve. revert ids.
  induction Hknown as [|first rest [id Hid] _ IH]; intros ids; cbn.
  - by rewrite Hcurve.
  - rewrite Hid. apply IH.
Qed.

Lemma cipherSuitesStage_Ok (tlsOption : Options) (conf conf' : Config) :
  cipherSuitesStage tlsOption conf = Ok conf' →
  match Options_CipherSuites tlsOption with
  | Some ciphers =>
      ∃ suites,
        Forall2 (fun cipher id => CipherSuites !! cipher = Some id)
          ciphers suites
        ∧ conf' = setCipherSuites conf (Some suites)
  | None => conf' = conf
  end.
Proof.
  unfold cipherSuitesStage.
  destruct (Options_CipherSuites tlsOption) as [ciphers|]; [|by intros [= <-]].
  destruct (resolveCipherSuites ciphers []) as [suites|] eqn:Hres; [|done].
  cbn. intros [= <-].
  apply resolveCipherSuites_Ok in Hres as (resolved & -> & Hrel).
  by exists resolved.
Qed.

Lemma curvePreferencesStage_Ok (tlsOption : Options) (conf conf' : Config) :
  curvePreferencesStage tlsOption conf = Ok conf' →
  match Options_CurvePreferences tlsOption with
  | Some curves =>
      ∃ ids,
        Forall2 (fun curve id => CurveIDs !! curve = Some id) curves ids
        ∧ conf' = setCurvePreferences conf (Some ids)
  | None => conf' = conf
  end.
Proof.
  unfold curvePreferencesStage.
  destruct (Options_CurvePreferences tlsOption) as [curves|];
    [|by intros [= <-]].
  destruct (resolveCurvePreferences curves []) as [ids|] eqn:Hres; [|done].
  cbn. intros [= <-].
  apply resolveCurvePreferences_Ok in Hres as (resolved & -> & Hrel).
  by exists resolved.
Qed.

(** Takes a successful [buildTLSConfig] apart into the outcome of each
    stage. *)
Ltac build_inversion Hbuild :=
  let conf1 := fresh "conf1" in
  let conf2 := fresh "conf2" in
  let conf4 := fresh "conf4" in
  let H1 := fresh "Hcas" in
  let H2 := fresh "Hauth" in
  let H4 := fresh "Hciphers" in
  let H5 := fresh "Hcurves" in
  apply buildTLSConfig_stages in Hbuild
    as (conf1 & conf2 & conf4 & H1 & H2 & H4 & H5);
  apply clientCAsStage_Ok in H1;
  apply clientAuthTypeStage_Ok in H2;
  apply cipherSuitesStage_Ok in H4;
  apply curvePreferencesStage_Ok in H5.

(** X1. Every configuration that [buildTLSConfig] returns advertises h2,
    http/1.1 and the ACME TLS-ALPN protocol, in this order, whatever the
    options. *)
Theorem buildTLSConfig_NextProtos (tlsOption : Options) (conf : Config) :
  buildTLSConfig tlsOption = Ok conf →
  Config_NextProtos conf = ["h2"; "http/1.1"; ACMETLS1Protocol].
Proof.
  intros Hbuild. build_inversion Hbuild.
  destruct (Options_CurvePreferences tlsOption);
    [destruct Hcurves as (? & _ & ->) | subst conf].
  all: destruct (Options_CipherSuites tlsOption);
    [destruct Hciphers as (? & _ & ->) | subst conf4].
  all: unfold maxVersionStage, minVersionStage; repeat case_match.
  all: destruct Hauth as [[_ ->] | (_ & ? & _ & _ & ->)].
  all: by destruct Hcas as [[_ ->] | (_ & ? & _ & ->)].
Qed.

(** X2. The version bounds: an identifier missing from the version table is
    ignored without error and leaves the bound at zero; a known one sets the
    bound to the table's constant. Server cipher-suite preference is switched
    on exactly when one of the two identifiers is known. *)
Theorem buildTLSConfig_versions (tlsOption : Options) (conf : Config) :
  buildTLSConfig tlsOption = Ok conf →
  Config_MinVersion conf
  = default 0 (MinVersion !! Options_MinVersion tlsOption)
  ∧ Config_MaxVersion conf
    = default 0 (MaxVersion !! Options_MaxVersion tlsOption)
  ∧ Config_PreferServerCipherSuites conf
    = bool_decide (is_Some (MinVersion !! Options_MinVersion tlsOption)
                   ∨ is_Some (MaxVersion !! Options_MaxVersion tlsOption)).
Proof.
  intros Hbuild. build_inversion Hbuild.
  destruct (Options_CurvePreferences tlsOption);
    [destruct Hcurves as (? & _ & ->) | subst conf].
  all: destruct (Options_CipherSuites tlsOption);
    [destruct Hciphers as (? & _ & ->) | subst conf4].
  all: unfold maxVersionStage, minVersionStage.
  all: destruct (MinVersion !! _), (MaxVersion !! _); cbn.
  all: destruct Hauth as [[_ ->] | (_ & ? & _ & _ & ->)].
  all: destruct Hcas as [[_ ->] | (_ & ? & _ & ->)]; cbn.
  all: split_and!; try done; symmetry.
  all: try (apply bool_decide_eq_true; (left + right); by eexists).
  all: apply bool_decide_eq_false; by intros [[? ?]|[? ?]].
Qed.

(** X3. The client-auth policy of a returned configuration: a policy string,
    when given, decides alone, also against the require-and-verify policy
    that CA files imply; without a policy string the policy is
    require-and-verify if CA files are given and no-client-cert otherwise. *)
Theorem buildTLSConfig_client_auth_policy (tlsOption : Options)
    (conf : Config) :
  buildTLSConfig tlsOption = Ok conf →
  Config_ClientAuth conf
  = match policyOf (ClientAuthType (Options_ClientAuth tlsOption)) with
    | Some policy => policy
    | None =>
        if (0 <? length (CAFiles (Options_ClientAuth tlsOption)))%nat
        then RequireAndVerifyClientCert
        else NoClientCert
    end.
Proof.
  intros Hbuild. build_inversion Hbuild.
  destruct (Options_CurvePreferences tlsOption);
    [destruct Hcurves as (? & _ & ->) | subst conf].
  all: destruct (Options_CipherSuites tlsOption);
    [destruct Hciphers as (? & _ & ->) | subst conf4].
  all: unfold maxVersionStage, minVersionStage.
  all: destruct (MinVersion !! _), (MaxVersion !! _); cbn.
  all: destruct Hauth as [[-> ->] | (_ & ? & -> & _ & ->)]; cbn; try done.
  all: destruct Hcas as [[-> ->] | (Hne & ? & _ & ->)]; cbn; try done.
  all: by destruct (CAFiles (Options_ClientAuth tlsOption)).
Qed.

(** X4. The trust pool of a returned configuration is the pool loaded from
    the CA files, and is nil exactly when no CA file is given; a returned
    configuration whose policy verifies client certificates always has a
    trust pool. *)
Theorem buildTLSConfig_trust_pool (tlsOption : Options) (conf : Config) :
  buildTLSConfig tlsOption = Ok conf →
  match CAFiles (Options_ClientAuth tlsOption) with
  | [] => Config_ClientCAs conf = None
  | caFiles =>
      ∃ pool, loadCAFiles caFiles NewCertPool = Ok pool
              ∧ Config_ClientCAs conf = Some pool
  end
  ∧ (verifies (Config_ClientAuth conf) = true →
     is_Some (Config_ClientCAs conf)).
Proof.
  intros Hbuild. build_inversion Hbuild.
  destruct (Options_CurvePreferences tlsOption);
    [destruct Hcurves as (? & _ & ->) | subst conf].
  all: destruct (Options_CipherSuites tlsOption);
    [destruct Hciphers as (? & _ & ->) | subst conf4].
  all: unfold maxVersionStage, minVersionStage.
  all: destruct (MinVersion !! _), (MaxVersion !! _); cbn.
  all: destruct Hauth as [[_ ->] | (_ & policy & _ & Hpool & ->)]; cbn.
  all: destruct Hcas as [[-> ->] | (Hne & pool & Hload & ->)]; cbn in *.
  all: try (split; [done | done]).
  all: destruct (CAFiles (Options_ClientAuth tlsOption)); try done.
  all: split; [by exists pool | by eexists].
Qed.

Lemma policyOf_Some (clientAuthType : string) (policy : tls_ClientAuthType) :
  policyOf clientAuthType = Some policy →
  (clientAuthType = "NoClientCert" ∧ policy = NoClientCert)
  ∨ (clientAuthType = "RequestClientCert" ∧ policy = RequestClientCert)
  ∨ (clientAuthType = "RequireAnyClientCert" ∧ policy = RequireAnyClientCert)
  ∨ (clientAuthType = "VerifyClientCertIfGiven"
     ∧ policy = VerifyClientCertIfGiven)
  ∨ (clientAuthType = "RequireAndVerifyClientCert"
     ∧ policy = RequireAndVerifyClientCert).
Proof.
  unfold policyOf.
  destruct (String.eqb_spec clientAuthType "NoClientCert") as [->|_];
    [intros [= <-]; tauto|].
  destruct (String.eqb_spec clientAuthType "RequestClientCert") as [->|_];
    [intros [= <-]; tauto|].
  destruct (String.eqb_spec clientAuthType "RequireAnyClientCert") as [->|_];
    [intros [= <-]; tauto|].
  destruct (String.eqb_spec clientAuthType "VerifyClientCertIfGiven")
    as [->|_]; [intros [= <-]; tauto|].
  destruct (String.eqb_spec clientAuthType "RequireAndVerifyClientCert")
    as [->|_]; [intros [= <-]; tauto | done].
Qed.

Lemma clientAuthTypeStage_accepts (tlsOption : Options) (conf : Config) :
  ClientAuthType (Options_ClientAuth tlsOption) = ""
  ∨ (∃ policy,
       policyOf (ClientAuthType (Options_ClientAuth tlsOption)) = Some policy
       ∧ (verifies policy = true → is_Some (Config_ClientCAs conf))) →
  ∃ conf', clientAuthTypeStage tlsOption conf = Ok conf'.
Proof.
  unfold clientAuthTypeStage.
  intros [-> | (policy & Hpolicy & Hpool)]; [by eexists|].
  apply policyOf_Some in Hpolicy
    as [[-> ->]|[[-> ->]|[[-> ->]|[[-> ->]|[-> ->]]]]]; cbn.
  1-3: rewrite andb_false_r; by eexists.
  all: destruct (Hpool eq_refl) as [pool ->]; by eexists.
Qed.

Lemma Forall2_resolvable {A} (table : gmap string A) (names : list string)
    (values : list A) :
  Forall2 (fun name value => table !! name = Some value) names values →
  Forall (fun name => is_Some (table !! name)) names.
Proof. induction 1; constructor; [by eexists | done]. Qed.

(** X5. [buildTLSConfig] returns a configuration exactly when every CA file
    is read and parsed, the policy string is empty or one of the five known
    names (a verifying one only together with CA files), and every
    cipher-suite and curve identifier is in its table. *)
Theorem buildTLSConfig_succeeds_iff (tlsOption : Options) :
  isOk (buildTLSConfig tlsOption) = true ↔
  isOk (loadCAFiles (CAFiles (Options_ClientAuth tlsOption)) NewCertPool)
  = true
  ∧ (ClientAuthType (Options_ClientAuth tlsOption) = ""
     ∨ ∃ policy,
         policyOf (ClientAuthType (Options_ClientAuth tlsOption)) = Some policy
         ∧ (verifies policy = true →
            CAFiles (Options_ClientAuth tlsOption) ≠ []))
  ∧ Forall (fun cipher => is_Some (CipherSuites !! cipher))
      (default [] (Options_CipherSuites tlsOption))
  ∧ Forall (fun curve => is_Some (CurveIDs !! curve))
      (default [] (Options_CurvePreferences tlsOption)).
Proof.
  split.
  - destruct (buildTLSConfig tlsOption) as [conf|] eqn:Hbuild; [|done].
    intros _. build_inversion Hbuild. split_and!.
    + destruct Hcas as [[-> _] | (_ & pool & -> & _)]; done.
    + destruct Hauth as [[? _] | (_ & policy & Hpolicy & Hpool & _)];
        [by left | right].
      exists policy. split; [done|]. intros Hv%Hpool.
      destruct Hcas as [[_ ->] | (? & _)]; [by destruct Hv | done].
    + destruct (Options_CipherSuites tlsOption); [|constructor].
      destruct Hciphers as (? & ?%Forall2_resolvable & _). done.
    + destruct (Options_CurvePreferences tlsOption); [|constructor].
      destruct Hcurves as (? & ?%Forall2_resolvable & _). done.
  - intros (Hload & Hpolicy & Hciphers & Hcurves).
    unfold buildTLSConfig.
    assert (∃ conf1, clientCAsStage tlsOption initialConfig = Ok conf1
                     ∧ (CAFiles (Options_ClientAuth tlsOption) ≠ [] →
                        is_Some (Config_ClientCAs conf1)))
      as (conf1 & -> & Hpool).
    { unfold clientCAsStage.
      destruct (CAFiles (Options_ClientAuth tlsOption)); [by eexists|].
      destruct (loadCAFiles _ _); [|done]. cbn. eexists. split; [done|].
      by eexists. }
    cbn.
    destruct (clientAuthTypeStage_accepts tlsOption conf1) as [conf2 ->].
    { destruct Hpolicy as [? | (policy & ? & Hv)]; [by left | right].
      exists policy. split; [done|]. intros ?. by apply Hpool, Hv. }
    cbn.
    destruct (cipherSuitesStage_ok tlsOption
                (maxVersionStage tlsOption (minVersionStage tlsOption conf2))
                Hciphers) as (conf4 & -> & _).
    cbn.
    by destruct (curvePreferencesStage_ok tlsOption conf4 Hcurves)
      as (conf5 & -> & _).
Qed.

(** X6. A policy string that is not empty and none of the five known names
    makes [buildTLSConfig] fail with the unknown-client-auth-type error
    naming it, provided the CA files, if any, were read and parsed. *)
Theorem buildTLSConfig_unknown_policy (tlsOption : Options) :
  isOk (loadCAFiles (CAFiles (Options_ClientAuth tlsOption)) NewCertPool)
  = true →
  ClientAuthType (Options_ClientAuth tlsOption) ≠ "" →
  policyOf (ClientAuthType (Options_ClientAuth tlsOption)) = None →
  buildTLSConfig tlsOption
  = Err (ErrUnknownClientAuthType
           (ClientAuthType (Options_ClientAuth tlsOption))).
Proof.
  intros Hload Hne Hpolicy. unfold buildTLSConfig, clientCAsStage.
  destruct (loadCAFiles _ _) as [pool|]; [|done].
  assert ((0 <? String.length
                  (ClientAuthType (Options_ClientAuth tlsOption)))%nat = true)
    as Hlen.
  { by destruct (ClientAuthType (Options_ClientAuth tlsOption)). }
  unfold policyOf in Hpolicy.
  destruct (0 <? length _)%nat; cbn; unfold clientAuthTypeStage;
    rewrite Hlen; cbn; by repeat case_match.
Qed.

(** X7. Once the client-auth stages have passed, the first cipher-suite
    identifier missing from the table makes [buildTLSConfig] fail with the
    invalid-cipher-suite error naming that identifier; the identifiers after
    it and the curve preferences are not looked at. *)
Theorem buildTLSConfig_first_unknown_cipher (tlsOption : Options)
    (known unknown : list string) (cipher : string) :
  isOk (clientCAsStage tlsOption initialConfig
        ≫= clientAuthTypeStage tlsOption) = true →
  Options_CipherSuites tlsOption = Some (known ++ cipher :: unknown) →
  Forall (fun cipher => is_Some (CipherSuites !! cipher)) known →
  CipherSuites !! cipher = None →
  buildTLSConfig tlsOption = Err (ErrInvalidCipherSuite cipher).
Proof.
  intros Hauth Hciphers Hknown Hcipher. unfold buildTLSConfig.
  destruct (clientCAsStage _ _) as [conf1|]; cbn in *; [|done].
  destruct (clientAuthTypeStage _ _) as [conf2|]; cbn in *; [|done].
  unfold cipherSuitesStage. rewrite Hciphers.
  by rewrite resolveCipherSuites_first_unknown.
Qed.

(** X8. With the client-auth stages passed and every cipher-suite identifier
    resolved, the first curve identifier missing from the curve table makes
    [buildTLSConfig] fail with the invalid-curve error naming it. *)
Theorem buildTLSConfig_first_unknown_curve (tlsOption : Options)
    (known unknown : list string) (curve : string) :
  isOk (clientCAsStage tlsOption initialConfig
        ≫= clientAuthTypeStage tlsOption) = true →
  Forall (fun cipher => is_Some (CipherSuites !! cipher))
    (default [] (Options_CipherSuites tlsOption)) →
  Options_CurvePreferences tlsOption = Some (known ++ curve :: unknown) →
  Forall (fun curve => is_Some (CurveIDs !! curve)) known →
  CurveIDs !! curve = None →
  buildTLSConfig tlsOption = Err (ErrInvalidCurveID curve).
Proof.
  intros Hauth Hciphers Hcurves Hknown Hcurve. unfold buildTLSConfig.
  destruct (clientCAsStage _ _) as [conf1|]; cbn in *; [|done].
  destruct (clientAuthTypeStage _ _) as [conf2|]; cbn in *; [|done].
  destruct (cipherSuitesStage_ok tlsOption
              (maxVersionStage tlsOption (minVersionStage tlsOption conf2))
              Hciphers) as (conf4 & -> & _).
  cbn. unfold curvePreferencesStage. rewrite Hcurves.
  by rewrite resolveCurvePreferences_first_unknown.
Qed.

Lemma loadCAFiles_app (before after : list FileOrContent) (pool : CertPool) :
  loadCAFiles (before ++ after) pool
  = loadCAFiles before pool ≫= loadCAFiles after.
Proof.
  revert pool. induction before as [|caFile rest IH]; intros pool; [done|].
  cbn. destruct (Read caFile) as [data|]; [cbn | done].
  destruct (AppendCertsFromPEM pool data) as [pool' []]; [apply IH|].
  by destruct (IsPath caFile).
Qed.

(** X9. The first CA file that cannot be used ends [buildTLSConfig]: a read
    error is returned as it is; content without a certificate gives the
    invalid-certificates error, naming the file when it is a path and
    anonymous when it is inline content. The CA files after it are not
    read. *)
Theorem buildTLSConfig_first_bad_CA_file (tlsOption : Options)
    (before after : list FileOrContent) (caFile : FileOrContent)
    (pool : CertPool) :
  CAFiles (Options_ClientAuth tlsOption) = before ++ caFile :: after →
  loadCAFiles before NewCertPool = Ok pool →
  (∀ err, Read caFile = Err err → buildTLSConfig tlsOption = Err err)
  ∧ (∀ data,
       Read caFile = Ok data →
       (AppendCertsFromPEM pool data).2 = false →
       buildTLSConfig tlsOption
       = Err (if IsPath caFile then ErrInvalidCertificatesIn caFile
              else ErrInvalidCertificatesContent)).
Proof.
  intros Hfiles Hbefore. unfold buildTLSConfig, clientCAsStage.
  rewrite Hfiles, loadCAFiles_app, Hbefore.
  replace (0 <? length (before ++ caFile :: after))%nat with true
    by by destruct before.
  cbn. split.
  - by intros err ->.
  - intros data ->. cbn.
    destruct (AppendCertsFromPEM pool data) as [pool' ok]. cbn.
    intros ->. by destruct (IsPath caFile).
Qed.

(** X10. A configuration built from options without cipher suites, be the
    list nil or empty, keeps that list as it is (nil stays nil, empty stays
    empty), and its configuration-selection hook returns it unchanged for
    every client hello. *)
Theorem buildTLSConfig_no_ciphers_no_adaptation (tlsOption : Options)
    (conf : Config) (clientHello : ClientHelloInfo) :
  buildTLSConfig tlsOption = Ok conf →
  default [] (Options_CipherSuites tlsOption) = [] →
  Config_CipherSuites conf = (fun _ => []) <$> Options_CipherSuites tlsOption
  ∧ GetConfigForClient conf clientHello = conf.
Proof.
  intros Hbuild Hnone.
  assert (Config_CipherSuites conf
          = (fun _ => []) <$> Options_CipherSuites tlsOption) as Hsuites.
  { build_inversion Hbuild.
    destruct (Options_CurvePreferences tlsOption);
      [destruct Hcurves as (? & _ & ->) | subst conf].
    all: destruct (Options_CipherSuites tlsOption) as [ciphers|];
      [destruct Hciphers as (? & Hrel & ->); cbn in Hnone; subst ciphers;
       by inversion Hrel | subst conf4].
    all: unfold maxVersionStage, minVersionStage; repeat case_match.
    all: destruct Hauth as [[_ ->] | (_ & ? & _ & _ & ->)].
    all: by destruct Hcas as [[_ ->] | (_ & ? & _ & ->)]. }
  split; [done|]. unfold GetConfigForClient. rewrite Hsuites.
  by destruct (Options_CipherSuites tlsOption) as [[|]|].
Qed.

(** ** Building default certificates and stores *)

Lemma buildDefaultCertificates_Forall2 (defaultCertificates : list Certificate)
    (certs : list tls_Certificate) :
  buildDefaultCertificates defaultCertificates = Ok certs →
  Forall2 (fun cert builtCert => buildDefaultCertificate cert = Ok builtCert)
    defaultCertificates certs.
Proof.
  revert certs.
  induction defaultCertificates as [|cert rest IH]; intros certs; cbn.
  - intros [= <-]. constructor.
  - destruct (buildDefaultCertificate cert) as [builtCert|] eqn:Hcert; [|done].
    cbn. destruct (buildDefaultCertificates rest) as [built|]; [|done].
    cbn. intros [= <-]. constructor; [done | by apply IH].
Qed.

(** X11. [buildDefaultCertificates] succeeds exactly when every configured
    certificate builds, and then returns the built certificates one for one
    in the configured order. *)
Theorem buildDefaultCertificates_Ok_iff (defaultCertificates : list Certificate)
    (certs : list tls_Certificate) :
  buildDefaultCertificates defaultCertificates = Ok certs ↔
  Forall2 (fun cert builtCert => buildDefaultCertificate cert = Ok builtCert)
    defaultCertificates certs.
Proof.
  revert certs.
  induction defaultCertificates as [|cert rest IH]; intros certs; cbn.
  - split; [by intros [= <-] | by inversion 1].
  - destruct (buildDefaultCertificate cert) as [builtCert|] eqn:Hcert; cbn.
    + destruct (buildDefaultCertificates rest) as [built|]; cbn.
      * split.
        -- intros [= <-]. constructor; [done | by apply IH].
        -- inversion 1 as [|? b ? bs Hb Hrest]; subst.
           rewrite Hcert in Hb. injection Hb as <-.
           apply IH in Hrest. by injection Hrest as <-.
      * split; [done|]. inversion 1 as [|? b ? bs Hb Hrest]; subst.
        by apply IH in Hrest.
    + split; [done|]. inversion 1 as [|? b ? bs Hb Hrest]; subst.
      by rewrite Hcert in Hb.
Qed.

(** X12. [buildDefaultCertificates] fails with the error of the first
    configured certificate that does not build; the certificates after it
    are not read. That error is always one of the three wrappers: certificate
    file content, key file content, or key-pair loading. *)
Theorem buildDefaultCertificates_first_failure
    (before after : list Certificate) (cert : Certificate) (err : error) :
  Forall (fun cert => isOk (buildDefaultCertificate cert) = true) before →
  buildDefaultCertificate cert = Err err →
  buildDefaultCertificates (before ++ cert :: after) = Err err
  ∧ ∃ cause, err = ErrCertFileContent cause
             ∨ err = ErrKeyFileContent cause
             ∨ err = ErrLoadX509KeyPair cause.
Proof.
  intros Hbefore Hcert. split.
  - induction Hbefore as [|first rest Hfirst _ IH]; cbn.
    + by rewrite Hcert.
    + destruct (buildDefaultCertificate first); [cbn | done]. by rewrite IH.
  - unfold buildDefaultCertificate in Hcert.
    destruct (Read (CertFile cert)); [|injection Hcert as <-; eauto].
    destruct (Read (KeyFile cert)); [|injection Hcert as <-; eauto].
    destruct (X509KeyPair _ _); [done | injection Hcert as <-; eauto].
Qed.

Lemma configuredDefaults_explicit (tlsStore : Store) :
  configuredCertificates tlsStore ≠ [] →
  configuredDefaults tlsStore
  = (certs ← buildDefaultCertificates (configuredCertificates tlsStore);
     Ok (certs, false)).
Proof.
  unfold configuredDefaults, configuredCertificates.
  destruct (Store_DefaultCertificates tlsStore) as [|cert rest]; [|done].
  destruct (Store_DefaultCertificate tlsStore) as [cert|]; [|done].
  intros _. cbn. by destruct (buildDefaultCertificate cert).
Qed.

(** X13. A store built without error from a definition that configures
    default certificates (the list taking precedence over the single one)
    holds the built certificates in the configured order, followed by one
    generated RSA certificate exactly when none of them is detected as RSA.
    No EC certificate is generated for it. *)
Theorem buildCertificateStore_explicit_defaults (tlsStore : Store)
    (store : CertificateStore tls_Certificate certificateKey) :
  configuredCertificates tlsStore ≠ [] →
  buildCertificateStore tlsStore = (store, None) →
  ∃ explicit,
    Forall2 (fun cert builtCert => buildDefaultCertificate cert = Ok builtCert)
      (configuredCertificates tlsStore) explicit
    ∧ if existsb (hasType RSA) explicit
      then DefaultCertificates store = explicit
      else ∃ rsaCert,
             generate_DefaultCertificate RSA = Ok rsaCert
             ∧ DefaultCertificates store = explicit ++ [rsaCert].
Proof.
  intros Hexplicit. unfold buildCertificateStore.
  rewrite (configuredDefaults_explicit _ Hexplicit).
  destruct (buildDefaultCertificates _) as [explicit|] eqn:Hbuilt; [|done].
  cbn. rewrite hasRSADefault_existsb. intros Hstore.
  exists explicit. split; [by apply buildDefaultCertificates_Forall2|].
  destruct (existsb (hasType RSA) explicit); cbn in *.
  - by injection Hstore as <-.
  - destruct (generate_DefaultCertificate RSA) as [rsaCert|]; [|done].
    injection Hstore as <-. by exists rsaCert.
Qed.

(** X14. When [buildCertificateStore] returns an error, the store object it
    returns with it has an empty dynamic map and either no default
    certificates at all, or exactly the built configured ones, the error
    then being that of the RSA generation. *)
Theorem buildCertificateStore_failure (tlsStore : Store)
    (store : CertificateStore tls_Certificate certificateKey) (err : error) :
  buildCertificateStore tlsStore = (store, Some err) →
  DynamicCerts store = ∅
  ∧ (DefaultCertificates store = []
     ∨ (Forall2
          (fun cert builtCert => buildDefaultCertificate cert = Ok builtCert)
          (configuredCertificates tlsStore) (DefaultCertificates store)
        ∧ existsb (hasType RSA) (DefaultCertificates store) = false
        ∧ generate_DefaultCertificate RSA = Err err)).
Proof.
  unfold buildCertificateStore.
  destruct (configuredDefaults tlsStore) as [[defaults has]|] eqn:Hconf;
    [|intros [= <- _]; by split; [|left]].
  destruct has; cbn; [done|].
  rewrite hasRSADefault_existsb.
  destruct (existsb (hasType RSA) defaults) eqn:Hrsa; cbn; [done|].
  destruct (generate_DefaultCertificate RSA) as [|err'] eqn:Hgen; [done|].
  intros [= <- <-]. split; [done|]. right. cbn. split_and!; [|done..].
  apply buildDefaultCertificates_Forall2.
  unfold configuredDefaults, configuredCertificates in *.
  destruct (Store_DefaultCertificates tlsStore) as [|cert rest]; cbn in *.
  - destruct (Store_DefaultCertificate tlsStore) as [cert|]; cbn in *.
    + destruct (buildDefaultCertificate cert); [|done].
      by injection Hconf as <-.
    + destruct (generate_DefaultCertificate RSA); [|done]. cbn in Hconf.
      by destruct (generate_DefaultCertificate EC).
  - destruct (buildDefaultCertificate cert); [cbn in * | done].
    destruct (buildDefaultCertificates rest); [|done].
    by injection Hconf as <-.
Qed.

(** ** The default-certificate selection on any list of defaults *)

(** X15. Whatever the defaults are, a certificate returned by the fallback
    is one of them and its type was detected: it is of the preferred type,
    or it is an RSA certificate returned to a client that prefers EC when no
    EC default exists. An EC certificate is never returned to a client that
    prefers RSA, and a certificate of undetectable type is never returned. *)
Theorem defaultCertificateLoop_Some (preferredType : CertificateType)
    (defaults : list tls_Certificate) (cert : tls_Certificate) :
  defaultCertificateLoop preferredType defaults None = Some cert →
  cert ∈ defaults
  ∧ (GetCertificateType cert = Ok preferredType
     ∨ (preferredType = EC
        ∧ GetCertificateType cert = Ok RSA
        ∧ firstOfType EC defaults = None)).
Proof.
  destruct preferredType.
  - rewrite defaultCertificateLoop_RSA.
    destruct (firstOfType RSA defaults) as [first|] eqn:Hfirst; [|done].
    intros [= <-]. apply firstOfType_Some in Hfirst as [? ?]. auto.
  - rewrite defaultCertificateLoop_EC.
    destruct (firstOfType EC defaults) as [first|] eqn:Hfirst.
    + intros [= <-]. apply firstOfType_Some in Hfirst as [? ?]. auto.
    + destruct (lastOfType RSA defaults) as [last|] eqn:Hlast; [|done].
      intros [= <-]. apply lastOfType_Some in Hlast as [? ?]. auto.
Qed.

(** X16. The fallback returns nil exactly when there is no RSA default and,
    for a client that prefers EC, no EC default either; in particular
    defaults that hold only EC certificates leave a client that prefers RSA
    without certificate. *)
Theorem defaultCertificateLoop_None_iff (preferredType : CertificateType)
    (defaults : list tls_Certificate) :
  defaultCertificateLoop preferredType defaults None = None ↔
  existsb (hasType RSA) defaults = false
  ∧ (preferredType = EC → existsb (hasType EC) defaults = false).
Proof.
  destruct preferredType.
  - rewrite defaultCertificateLoop_RSA.
    destruct (firstOfType RSA defaults) as [first|] eqn:Hfirst.
    + assert (existsb (hasType RSA) defaults = true) as ->
        by (apply firstOfType_is_Some; by eexists).
      split; [done | by intros [? _]].
    + destruct (existsb (hasType RSA) defaults) eqn:Hrsa; [|done].
      apply firstOfType_is_Some in Hrsa as [? ?]. congruence.
  - rewrite defaultCertificateLoop_EC.
    destruct (existsb (hasType EC) defaults) eqn:Hec.
    { apply firstOfType_is_Some in Hec as [? ->].
      split; [done | intros [_ Hec]; by specialize (Hec eq_refl)]. }
    destruct (firstOfType EC defaults) eqn:Hfirst.
    { assert (existsb (hasType EC) defaults = true)
        by (apply firstOfType_is_Some; by eexists). congruence. }
    destruct (existsb (hasType RSA) defaults) eqn:Hrsa.
    + apply lastOfType_is_Some in Hrsa as [? ->].
      split; [done | by intros [? _]].
    + destruct (lastOfType RSA defaults) eqn:Hlast; [|done].
      assert (existsb (hasType RSA) defaults = true)
        by (apply lastOfType_is_Some; by eexists). congruence.
Qed.

(** ** The configuration-selection hook *)

(** X17. The hook never touches anything but the cipher list: protocols,
    trust pool, client-auth policy, server preference, version bounds and
    curve preferences of the returned configuration are those of the base
    configuration, for every client hello. *)
Theorem GetConfigForClient_only_cipher_suites (tlsConfig : Config)
    (clientHello : ClientHelloInfo) :
  GetConfigForClient tlsConfig clientHello
  = setCipherSuites tlsConfig
      (Config_CipherSuites (GetConfigForClient tlsConfig clientHello)).
Proof.
  unfold GetConfigForClient. destruct tlsConfig; cbn.
  by repeat case_match.
Qed.

(** X18. The hook returns the base configuration as it is whenever the
    configured cipher list is nil or empty, the client offers no cipher
    suite, or the client's first suite is not a ChaCha20 one. *)
Theorem GetConfigForClient_keeps_base (tlsConfig : Config)
    (clientHello : ClientHelloInfo) :
  default [] (Config_CipherSuites tlsConfig) = []
  ∨ match default [] (Hello_CipherSuites clientHello) with
    | first :: _ => isChaChaCipherSuite first = false
    | [] => True
    end →
  GetConfigForClient tlsConfig clientHello = tlsConfig.
Proof.
  unfold GetConfigForClient.
  destruct (Config_CipherSuites tlsConfig) as [[|? ?]|]; cbn; try done.
  destruct (Hello_CipherSuites clientHello) as [[|first ?]|]; cbn; try done.
  intros [? | ->]; done.
Qed.

Lemma forcedBefore_not_forced (cipherSuite : Z) (forceCiphers : list Z) :
  cipherSuite ∉ forceCiphers →
  forcedBefore cipherSuite forceCiphers = length forceCiphers.
Proof.
  induction forceCiphers as [|forced rest IH]; [done|].
  intros [Hne Hrest]%not_elem_of_cons. cbn.
  destruct (Z.eqb_spec forced cipherSuite); [done|]. by rewrite IH.
Qed.

Lemma elem_of_concat_replicate (count : Z → nat) (suites : list Z) (x : Z) :
  x ∈ concat ((fun suite => replicate (count suite) suite) <$> suites) ↔
  x ∈ suites ∧ count x ≠ 0%nat.
Proof.
  induction suites as [|suite rest IH]; cbn.
  - split; [by intros ?%elem_of_nil | by intros [?%elem_of_nil _]].
  - rewrite elem_of_app, elem_of_replicate, IH, elem_of_cons.
    split.
    + intros [[-> ?] | [? ?]]; auto.
    + intros [[-> | ?] ?]; auto.
Qed.

(** X19. When the configured list holds no ChaCha20 suite and the client's
    first suite is a ChaCha20 one, the hook installs an empty cipher list:
    every configured suite is dropped. *)
Theorem GetConfigForClient_without_chacha_empties (tlsConfig : Config)
    (clientHello : ClientHelloInfo) (configured offered : list Z) (first : Z) :
  Config_CipherSuites tlsConfig = Some configured →
  configured ≠ [] →
  Forall (fun cipherSuite => isChaChaCipherSuite cipherSuite = false)
    configured →
  Hello_CipherSuites clientHello = Some (first :: offered) →
  isChaChaCipherSuite first = true →
  Config_CipherSuites (GetConfigForClient tlsConfig clientHello) = Some [].
Proof.
  intros Hconf Hne Hnone Hhello Hfirst.
  rewrite (GetConfigForClient_chacha_first _ _ configured offered first)
    by done.
  assert (List.filter isChaChaCipherSuite configured = []) as ->.
  { clear Hconf Hne. induction Hnone as [|c rest Hc _ IH]; [done|].
    cbn. by rewrite Hc. }
  f_equal. clear. by induction configured.
Qed.

(** X20. When the configured list holds ChaCha20 suites and the client's
    first suite is a ChaCha20 one, the installed list begins with the
    configured ChaCha20 suites in configured order and holds exactly the
    configured suites: none is lost and none is added, though some may be
    repeated. *)
Theorem GetConfigForClient_with_chacha_same_suites (tlsConfig : Config)
    (clientHello : ClientHelloInfo) (configured offered : list Z) (first : Z) :
  Config_CipherSuites tlsConfig = Some configured →
  List.filter isChaChaCipherSuite configured ≠ [] →
  Hello_CipherSuites clientHello = Some (first :: offered) →
  isChaChaCipherSuite first = true →
  ∃ rest,
    Config_CipherSuites (GetConfigForClient tlsConfig clientHello)
    = Some (List.filter isChaChaCipherSuite configured ++ rest)
    ∧ ∀ cipherSuite,
        cipherSuite ∈ List.filter isChaChaCipherSuite configured ++ rest ↔
        cipherSuite ∈ configured.
Proof.
  intros Hconf Hforced Hhello Hfirst.
  rewrite (GetConfigForClient_chacha_first _ _ configured offered first);
    [|done | by intros -> | done..].
  eexists. split; [done|]. intros x.
  rewrite elem_of_app, elem_of_concat_replicate.
  rewrite !list_elem_of_In, filter_In. split; [tauto|].
  intros Hin. destruct (isChaChaCipherSuite x) eqn:Hx; [by left | right].
  split; [done|]. rewrite forcedBefore_not_forced.
  - by destruct (List.filter isChaChaCipherSuite configured).
  - rewrite list_elem_of_In, filter_In. intros [_ ?]. congruence.
Qed.

(** X21. When exactly one configured suite is a ChaCha20 one, the list the
    hook installs for a ChaCha20-first client is the ChaCha20-first order of
    the configured list, without repetition. *)
Theorem GetConfigForClient_one_chacha_moves_it_first (tlsConfig : Config)
    (clientHello : ClientHelloInfo) (configured offered : list Z)
    (first forced : Z) :
  Config_CipherSuites tlsConfig = Some configured →
  List.filter isChaChaCipherSuite configured = [forced] →
  Hello_CipherSuites clientHello = Some (first :: offered) →
  isChaChaCipherSuite first = true →
  Config_CipherSuites (GetConfigForClient tlsConfig clientHello)
  = Some (forced
          :: List.filter (fun c => negb (isChaChaCipherSuite c)) configured).
Proof.
  intros Hconf Hsingle Hhello Hfirst.
  rewrite (GetConfigForClient_single_chacha _ _ configured offered first forced)
    by done.
  unfold chachaFirst. by rewrite Hsingle.
Qed.

(** ** The certificate hook *)

(** Order of precedence in the certificate hook: a certificate from the
    ALPN-challenge provider is returned whatever the store and the options
    hold; failing that, a dynamic certificate matching the hello is returned
    even when strict SNI is set. *)
Lemma GetCertificate_precedence (c : Closure CertPool)
    (s : State tls_Certificate certificateKey) (clientHello : ClientHelloInfo)
    (cert : tls_Certificate) :
  (match TLSAlpnGetter (manager s) with
   | Some getter =>
       getter (CanonicalDomain (Hello_ServerName clientHello)) = Ok (Some cert)
   | None => False
   end
   ∨ (alpnSilent (manager s) (CanonicalDomain (Hello_ServerName clientHello))
      ∧ GetBestCertificate (deref (heap s) (closure_store c)) clientHello
        = Some cert)) →
  GetCertificate c s clientHello = Ok (Some cert).
Proof.
  unfold GetCertificate, alpnSilent.
  destruct (TLSAlpnGetter (manager s)) as [getter|].
  - intros [-> | [-> ->]]; done.
  - intros [[] | [_ ->]]; done.
Qed.

(** ** Get-or-create of stores *)

Lemma getStore_storeOf (s : State tls_Certificate certificateKey)
    (storeName : string) :
  wellFormed s →
  storeOf (getStore s storeName).2 storeName
  = Some (default createdStore (storeOf s storeName))
  ∧ heap (getStore s storeName).2 !! (getStore s storeName).1
    = Some (default createdStore (storeOf s storeName))
  ∧ ∀ other, other ≠ storeName →
      stores (manager (getStore s storeName).2) !! other
      = stores (manager s) !! other
      ∧ storeOf (getStore s storeName).2 other = storeOf s other.
Proof.
  intros Hwf. unfold storeOf, getStore, createdStore, wellFormed, loc in *.
  destruct (_ !! storeName) as [l|] eqn:Hl; cbn.
  - destruct (lookup_lt_is_Some_2 (heap s) l (Hwf _ _ Hl)) as [store Hs].
    rewrite Hl. cbn. by rewrite Hs.
  - destruct (buildCertificateStore zeroStore) as [store ?]. cbn.
    rewrite lookup_insert_eq. cbn. rewrite list_lookup_middle by done.
    split_and!; [done..|]. intros other Hne.
    rewrite lookup_insert_ne by done. split; [done|].
    destruct (_ !! other) as [l|] eqn:Hother; [cbn|done].
    apply lookup_app_l. by eapply Hwf.
Qed.

Lemma getStore_separateStores (s : State tls_Certificate certificateKey)
    (storeName : string) :
  wellFormed s → separateStores s →
  separateStores (getStore s storeName).2.
Proof.
  intros Hwf Hsep. unfold getStore.
  destruct (stores (manager s) !! storeName) as [l|] eqn:Hl; [done|].
  destruct (buildCertificateStore zeroStore) as [store ?].
  intros name1 name2 l. cbn. unfold loc in *.
  destruct (decide (storeName = name1)) as [<-|Hne1],
           (decide (storeName = name2)) as [<-|Hne2]; [done|..];
    rewrite ?lookup_insert_eq, ?lookup_insert_ne by done.
  - intros [= <-] ?%Hwf. lia.
  - intros ?%Hwf [= <-]. lia.
  - apply Hsep.
Qed.

(** X22. Get-or-create is idempotent and local: resolving a name a second
    time returns the same store object and changes nothing, and resolving a
    name never changes what any other name is registered to, nor any store
    object that existed before. *)
Theorem getStore_idempotent_and_local
    (s : State tls_Certificate certificateKey) (storeName : string) :
  getStore (getStore s storeName).2 storeName = getStore s storeName
  ∧ (∀ other, other ≠ storeName →
       stores (manager (getStore s storeName).2) !! other
       = stores (manager s) !! other)
  ∧ (∀ l, (l < length (heap s))%nat →
       heap (getStore s storeName).2 !! l = heap s !! l).
Proof.
  split_and!.
  - unfold getStore at 2 3.
    destruct (stores (manager s) !! storeName) as [l|] eqn:Hl; cbn.
    + unfold getStore. by rewrite Hl.
    + destruct (buildCertificateStore zeroStore) as [store ?]. cbn.
      unfold getStore. cbn. by rewrite lookup_insert_eq.
  - intros other Hne. unfold getStore.
    destruct (stores (manager s) !! storeName); [done|].
    destruct (buildCertificateStore zeroStore). cbn.
    by rewrite lookup_insert_ne.
  - intros l Hl. unfold getStore.
    destruct (stores (manager s) !! storeName); [done|].
    destruct (buildCertificateStore zeroStore). cbn.
    by apply lookup_app_l.
Qed.

(** ** [Get] *)

Lemma Get_outcome (s : State tls_Certificate certificateKey)
    (storeName configName : string) :
  ((Get s storeName configName).1.2,
   closure_tlsConfig (Get s storeName configName).1.1)
  = match configs (manager s) !! configName with
    | None => (Some (ErrUnknownTLSOptions configName), zeroConfig)
    | Some config =>
        match buildTLSConfig config with
        | Ok tlsConfig => (None, tlsConfig)
        | Err err => (Some err, zeroConfig)
        end
    end
  ∧ closure_configName (Get s storeName configName).1.1 = configName
  ∧ configs (manager (Get s storeName configName).2) = configs (manager s)
  ∧ TLSAlpnGetter (manager (Get s storeName configName).2)
    = TLSAlpnGetter (manager s).
Proof.
  destruct (getStore_manager s storeName) as [Hconfigs Hgetter].
  unfold Get. destruct (getStore s storeName) as [l s1]. cbn in *.
  destruct (configs (manager s) !! configName) as [config|];
    [destruct (buildTLSConfig config)|]; done.
Qed.

(** X23. [Get] returns no error exactly when the options name is registered
    and [buildTLSConfig] accepts its options, and the closure then holds the
    configuration built from them. On any error, which is the
    unknown-options error for an unregistered name and the error of
    [buildTLSConfig] otherwise, the closure holds the zero configuration,
    which advertises no protocol. [Get] leaves the options registry and the
    ALPN provider as they were. *)
Theorem Get_configuration (s : State tls_Certificate certificateKey)
    (storeName configName : string) :
  ((Get s storeName configName).1.2 = None ↔
   ∃ config,
     configs (manager s) !! configName = Some config
     ∧ buildTLSConfig config
       = Ok (closure_tlsConfig (Get s storeName configName).1.1))
  ∧ (∀ err,
       (Get s storeName configName).1.2 = Some err →
       closure_tlsConfig (Get s storeName configName).1.1 = zeroConfig
       ∧ match configs (manager s) !! configName with
         | None => err = ErrUnknownTLSOptions configName
         | Some config => buildTLSConfig config = Err err
         end)
  ∧ configs (manager (Get s storeName configName).2) = configs (manager s)
  ∧ TLSAlpnGetter (manager (Get s storeName configName).2)
    = TLSAlpnGetter (manager s).
Proof.
  destruct (Get_outcome s storeName configName)
    as (Hget & _ & Hconfigs & Hgetter).
  split_and!; [| |done..].
  - destruct (configs (manager s) !! configName) as [config|].
    + destruct (buildTLSConfig config) as [tlsConfig|] eqn:Hbuild;
        injection Hget as -> ->.
      * split; [|done]. intros _. by exists config.
      * split; [done|]. intros (? & [= <-] & Hok). congruence.
    + injection Hget as -> ->. split; [done|]. by intros (? & ? & _).
  - intros err Herr.
    destruct (configs (manager s) !! configName) as [config|].
    + destruct (buildTLSConfig config) as [tlsConfig|] eqn:Hbuild;
        injection Hget as Herr' ->; rewrite Herr' in Herr; [done|].
      by injection Herr as <-.
    + injection Hget as Herr' ->. rewrite Herr' in Herr.
      by injection Herr as <-.
Qed.

(** ** What a reload registers *)

Lemma getStore_registered (s : State tls_Certificate certificateKey)
    (storeName : string) :
  stores (manager (getStore s storeName).2) !! storeName
  = Some (getStore s storeName).1.
Proof.
  unfold getStore.
  destruct (stores (manager s) !! storeName) as [l|] eqn:Hl; [done|].
  destruct (buildCertificateStore zeroStore). cbn.
  by rewrite lookup_insert_eq.
Qed.

Lemma getStore_keeps_wellFormed (s : State tls_Certificate certificateKey)
    (storeName : string) :
  wellFormed s → wellFormed (getStore s storeName).2.
Proof.
  intros Hwf.
  destruct (getStore_allocatedFrom 0 s storeName
              (wellFormed_allocatedFrom _ Hwf)) as (Halloc & _).
  by eapply allocatedFrom_wellFormed.
Qed.

Lemma setStoreCertificates_storeOf
    (s : State tls_Certificate certificateKey)
    (entry : string * gmap certificateKey tls_Certificate) :
  wellFormed s → separateStores s →
  wellFormed (setStoreCertificates s entry)
  ∧ separateStores (setStoreCertificates s entry)
  ∧ ∀ name,
      storeOf (setStoreCertificates s entry) name
      = if decide (name = entry.1)
        then Some (setDynamicCerts entry.2
                     (default createdStore (storeOf s entry.1)))
        else storeOf s name.
Proof.
  intros Hwf Hsep.
  pose proof (getStore_keeps_wellFormed s entry.1 Hwf) as Hwf1.
  pose proof (getStore_separateStores s entry.1 Hwf Hsep) as Hsep1.
  pose proof (getStore_registered s entry.1) as Hreg.
  destruct (getStore_storeOf s entry.1 Hwf) as (_ & Hobject & Hothers).
  unfold setStoreCertificates.
  destruct (getStore s entry.1) as [l s1]. cbn in *.
  split_and!.
  - intros name l'. cbn. rewrite length_alter. apply Hwf1.
  - done.
  - intros name. unfold storeOf in *. cbn. unfold loc in *.
    destruct (decide (name = entry.1)) as [->|Hne].
    + rewrite Hreg. cbn. by rewrite list_lookup_alter_eq, Hobject.
    + destruct (Hothers name Hne) as [_ <-].
      destruct (_ !! name) as [l'|] eqn:Hname; [cbn|done].
      apply list_lookup_alter_ne. intros <-.
      apply Hne. by eapply Hsep1.
Qed.

Lemma fold_setStoreCertificates_storeOf
    (entries : list (string * gmap certificateKey tls_Certificate))
    (s : State tls_Certificate certificateKey) :
  NoDup entries.*1 →
  wellFormed s → separateStores s →
  wellFormed (fold_left setStoreCertificates entries s)
  ∧ separateStores (fold_left setStoreCertificates entries s)
  ∧ ∀ name,
      storeOf (fold_left setStoreCertificates entries s) name
      = match (list_to_map entries
                 : gmap string (gmap certificateKey tls_Certificate)) !! name
        with
        | Some certs =>
            Some (setDynamicCerts certs
                    (default createdStore (storeOf s name)))
        | None => storeOf s name
        end.
Proof.
  revert s. induction entries as [|[k certs] rest IH]; intros s Hnodup Hwf Hsep.
  { split_and!; [done..|]. intros name. by rewrite list_to_map_nil, lookup_empty. }
  apply NoDup_cons in Hnodup as [Hk Hnodup]. cbn.
  destruct (setStoreCertificates_storeOf s (k, certs) Hwf Hsep)
    as (Hwf1 & Hsep1 & Hview1).
  destruct (IH _ Hnodup Hwf1 Hsep1) as (Hwf2 & Hsep2 & Hview2).
  split_and!; [done..|]. intros name. rewrite Hview2, Hview1. cbn.
  destruct (decide (name = k)) as [->|Hne].
  - rewrite lookup_insert_eq.
    by rewrite (not_elem_of_list_to_map_1 rest k).
  - rewrite lookup_insert_ne by done.
    by destruct (_ !! name).
Qed.

Lemma fold_rebuildStore_view (entries : list (string * Store))
    (h : list (CertificateStore tls_Certificate certificateKey))
    (registry : gmap string loc) :
  NoDup entries.*1 →
  (∀ name l, registry !! name = Some l → (l < length h)%nat) →
  (∀ name1 name2 l,
     registry !! name1 = Some l → registry !! name2 = Some l →
     name1 = name2) →
  let r := fold_left rebuildStore entries (h, registry) in
  (∀ name l, r.2 !! name = Some l → (l < length r.1)%nat)
  ∧ (∀ name1 name2 l,
       r.2 !! name1 = Some l → r.2 !! name2 = Some l → name1 = name2)
  ∧ ∀ name,
      r.2 !! name ≫= (fun l => r.1 !! l)
      = match builtStore (list_to_map entries) name with
        | Some store => Some store
        | None => registry !! name ≫= (fun l => h !! l)
        end.
Proof.
  unfold builtStore, loc in *. revert h registry.
  induction entries as [|[k tlsStore] rest IH];
    intros h registry Hnodup Hbound Hsep.
  { split_and!; [done..|]. intros name. by rewrite list_to_map_nil, lookup_empty. }
  apply NoDup_cons in Hnodup as [Hk Hnodup]. cbn.
  destruct (buildCertificateStore tlsStore) as [store [err|]] eqn:Hbuild.
  - destruct (IH h registry Hnodup Hbound Hsep) as (Hbound' & Hsep' & Hview').
    split_and!; [done..|]. intros name. rewrite Hview'.
    destruct (decide (name = k)) as [->|Hne].
    + rewrite lookup_insert_eq. cbn. rewrite Hbuild.
      by rewrite (not_elem_of_list_to_map_1 rest k).
    + by rewrite lookup_insert_ne.
  - destruct (IH (h ++ [store]) (<[k := length h]> registry) Hnodup)
      as (Hbound' & Hsep' & Hview').
    { intros name l. rewrite length_app. cbn.
      destruct (decide (k = name)) as [->|Hne].
      - rewrite lookup_insert_eq. intros [= <-]. lia.
      - rewrite lookup_insert_ne by done. intros ?%Hbound. lia. }
    { intros name1 name2 l.
      destruct (decide (k = name1)) as [<-|Hne1],
               (decide (k = name2)) as [<-|Hne2]; [done|..];
        rewrite ?lookup_insert_eq, ?lookup_insert_ne by done.
      - intros [= <-] ?%Hbound. lia.
      - intros ?%Hbound [= <-]. lia.
      - apply Hsep. }
    split_and!; [done..|]. intros name. rewrite Hview'.
    destruct (decide (name = k)) as [->|Hne].
    + rewrite !lookup_insert_eq. cbn. rewrite Hbuild.
      rewrite (not_elem_of_list_to_map_1 rest k) by done. cbn.
      by rewrite list_lookup_middle.
    + rewrite !lookup_insert_ne by done.
      destruct (_ ≫= _) as [built|]; [done|].
      destruct (registry !! name) as [l|] eqn:Hname; [cbn|done].
      apply lookup_app_l. by eapply Hbound.
Qed.

Lemma UpdateConfigs_storeOf (s : State tls_Certificate certificateKey)
    (stores_ : gmap string Store) (configs_ : gmap string Options)
    (certs_ : list CertAndStores) (storeName : string) :
  storeOf (UpdateConfigs s stores_ configs_ certs_) storeName
  = reloadedStore stores_ certs_ storeName
  ∧ wellFormed (UpdateConfigs s stores_ configs_ certs_)
  ∧ separateStores (UpdateConfigs s stores_ configs_ certs_).
Proof.
  unfold UpdateConfigs, reloadedStore.
  destruct (fold_rebuildStore_view (map_to_list stores_) (heap s) ∅)
    as (Hbound & Hsep & Hview);
    [apply NoDup_fst_map_to_list | by intros ?? | by intros ??? |].
  destruct (fold_left rebuildStore _ _) as [h registry]. cbn in *.
  unfold StoresCertificates in *.
  match goal with
  | |- context [fold_left setStoreCertificates ?entries ?s1] =>
      destruct (fold_setStoreCertificates_storeOf entries s1)
        as (Hwf2 & Hsep2 & Hview2);
        [apply NoDup_fst_map_to_list | done | done |]
  end.
  split_and!; [|done..].
  rewrite Hview2, list_to_map_to_list. unfold storeOf at 1 2. cbn.
  rewrite Hview, list_to_map_to_list, lookup_empty. cbn.
  destruct (_ !! storeName); by destruct (builtStore stores_ storeName).
Qed.

(** X24. After a reload, what is registered under a store name is
    determined by the arguments of the reload alone. If certificates were
    appended for the name, it is the store built from the definition of that
    name, or the get-or-create store if there is no definition or it fails
    to build, with those certificates as dynamic certificates. Otherwise it
    is the store built from the definition, as built; and a name with
    neither certificates nor a definition is not in the registry, whatever
    was registered before. *)
Theorem UpdateConfigs_registers (s : State tls_Certificate certificateKey)
    (stores_ : gmap string Store) (configs_ : gmap string Options)
    (certs_ : list CertAndStores) (storeName : string) :
  let reloaded := UpdateConfigs s stores_ configs_ certs_ in
  match fold_left appendCertificates certs_ ∅ !! storeName with
  | Some certs =>
      storeOf reloaded storeName
      = Some (setDynamicCerts certs
                (default createdStore (builtStore stores_ storeName)))
  | None =>
      storeOf reloaded storeName = builtStore stores_ storeName
      ∧ (stores_ !! storeName = None →
         stores (manager reloaded) !! storeName = None)
  end.
Proof.
  intros reloaded.
  destruct (UpdateConfigs_storeOf s stores_ configs_ certs_ storeName)
    as (Hstore & Hwf & _).
  fold reloaded in Hstore, Hwf. unfold reloadedStore in Hstore.
  destruct (fold_left appendCertificates certs_ ∅ !! storeName); [done|].
  split; [done|]. intros Hnone.
  unfold builtStore in Hstore. rewrite Hnone in Hstore. cbn in Hstore.
  unfold storeOf in Hstore.
  destruct (stores (manager reloaded) !! storeName) as [l|] eqn:Hl; [|done].
  apply Hwf in Hl. apply lookup_lt_is_Some in Hl as [store Hl].
  cbn in Hstore. unfold loc in *. congruence.
Qed.

(** ** Invariants of the manager and snapshots *)

Lemma step_invariant (s s' : State tls_Certificate certificateKey) :
  step s s' →
  wellFormed s → separateStores s →
  wellFormed s' ∧ separateStores s'.
Proof.
  intros [s0 storeName configName | s0 storeName
          | s0 stores_ configs_ certs_ | s0 getter] Hwf Hsep.
  - destruct (Get s0 storeName configName) as [[c err] s1] eqn:HGet.
    apply Get_closure in HGet as (-> & _ & _). cbn.
    split; [by apply getStore_keeps_wellFormed
           | by apply getStore_separateStores].
  - unfold GetStore.
    split; [by apply getStore_keeps_wellFormed
           | by apply getStore_separateStores].
  - by destruct (UpdateConfigs_storeOf s0 stores_ configs_ certs_ "")
      as (_ & ? & ?).
  - done.
Qed.

Lemma step_heap (s s' : State tls_Certificate certificateKey) :
  step s s' →
  (length (heap s) ≤ length (heap s'))%nat
  ∧ ∀ l, (l < length (heap s))%nat → heap s' !! l = heap s !! l.
Proof.
  assert (∀ s0 storeName,
            (length (heap s0) ≤ length (heap (getStore s0 storeName).2))%nat
            ∧ ∀ l, (l < length (heap s0))%nat →
                heap (getStore s0 storeName).2 !! l = heap s0 !! l)
    as HgetStore.
  { intros s0 storeName. unfold getStore.
    destruct (stores (manager s0) !! storeName); [done|].
    destruct (buildCertificateStore zeroStore). cbn.
    rewrite length_app. split; [lia|]. intros l Hl. by apply lookup_app_l. }
  intros [s0 storeName configName | s0 storeName
          | s0 stores_ configs_ certs_ | s0 getter].
  - destruct (Get s0 storeName configName) as [[c err] s1] eqn:HGet.
    apply Get_closure in HGet as (-> & _ & _). apply HgetStore.
  - apply HgetStore.
  - destruct (UpdateConfigs_frame s0 stores_ configs_ certs_)
      as ([Hlen _] & Hprefix & _). done.
  - done.
Qed.

Lemma steps_heap (s s' : State tls_Certificate certificateKey) :
  rtc step s s' →
  (length (heap s) ≤ length (heap s'))%nat
  ∧ ∀ l, (l < length (heap s))%nat → heap s' !! l = heap s !! l.
Proof.
  induction 1 as [s|s s1 s2 Hstep _ [Hlen IH]]; [done|].
  destruct (step_heap _ _ Hstep) as [Hlen1 Hprefix1].
  split; [lia|]. intros l Hl. rewrite IH by lia. by apply Hprefix1.
Qed.

Lemma NewManager_wellFormed :
  wellFormed
    ({| heap := []; manager := NewManager |}
       : State tls_Certificate certificateKey)
  ∧ separateStores
      ({| heap := []; manager := NewManager |}
         : State tls_Certificate certificateKey).
Proof.
  split; [intros name l | intros name1 name2 l]; cbn; by rewrite lookup_empty.
Qed.

Lemma steps_invariant (s s' : State tls_Certificate certificateKey) :
  rtc step s s' →
  wellFormed s ∧ separateStores s →
  wellFormed s' ∧ separateStores s'.
Proof.
  induction 1 as [s|s s1 s2 Hstep _ IH]; [done|].
  intros [Hwf Hsep]. by eapply IH, step_invariant.
Qed.


Lemma Get_store (s : State tls_Certificate certificateKey)
    (storeName configName : string) :
  wellFormed s →
  heap (Get s storeName configName).2
    !! closure_store (Get s storeName configName).1.1
  = Some (default createdStore (storeOf s storeName)).
Proof.
  intros Hwf.
  destruct (Get s storeName configName) as [[c err] s1] eqn:HGet.
  apply Get_closure in HGet as (-> & Hc & _). cbn. rewrite Hc.
  by destruct (getStore_storeOf s storeName Hwf) as (_ & ? & _).
Qed.

(** X26. The store object a closure of [Get] has captured is the store
    registered under the store name at [Get] time, or the newly created one
    for an unregistered name, and no later call on the manager, reloads
    included, changes or removes that object. *)
Theorem captured_store_is_a_snapshot
    (s s' : State tls_Certificate certificateKey)
    (storeName configName : string) :
  reachable s →
  rtc step (Get s storeName configName).2 s' →
  heap s' !! closure_store (Get s storeName configName).1.1
  = Some (default createdStore (storeOf s storeName)).
Proof.
  intros Hreach Hsteps.
  destruct (steps_invariant _ _ Hreach NewManager_wellFormed) as [Hwf _].
  pose proof (Get_store s storeName configName Hwf) as Hstore.
  destruct (steps_heap _ _ Hsteps) as [_ Hprefix].
  rewrite Hprefix; [done|]. apply lookup_lt_is_Some. by eexists.
Qed.

(** X27. After any later calls on the manager, the certificate hook of a
    closure answers as it did right after [Get], provided the ALPN provider
    and the [SniStrict] flag registered under the captured options name are
    the same as then. Those two are the only things the hook reads from the
    manager at handshake time. *)
Theorem GetCertificate_after_later_calls
    (s s' : State tls_Certificate certificateKey)
    (storeName configName : string) (clientHello : ClientHelloInfo) :
  reachable s →
  rtc step (Get s storeName configName).2 s' →
  TLSAlpnGetter (manager s') = TLSAlpnGetter (manager s) →
  sniStrictOf (manager s') configName = sniStrictOf (manager s) configName →
  GetCertificate (Get s storeName configName).1.1 s' clientHello
  = GetCertificate (Get s storeName configName).1.1
      (Get s storeName configName).2 clientHello.
Proof.
  intros Hreach Hsteps Hgetter Hstrict.
  destruct (steps_invariant _ _ Hreach NewManager_wellFormed) as [Hwf _].
  pose proof (Get_store s storeName configName Hwf) as Hstore.
  assert (heap s' !! closure_store (Get s storeName configName).1.1
          = Some (default createdStore (storeOf s storeName))) as Hstore'.
  { destruct (steps_heap _ _ Hsteps) as [_ Hprefix].
    rewrite Hprefix; [done|]. apply lookup_lt_is_Some. by eexists. }
  destruct (Get_outcome s storeName configName)
    as (_ & Hname & Hconfigs & Hgetter1).
  unfold GetCertificate, deref, sniStrictOf in *.
  by rewrite Hstore', Hstore, Hname, Hgetter, Hgetter1, Hstrict, Hconfigs.
Qed.

(** ** Reloads as a whole *)



(** X29. A reload replaces the options registry wholesale: an options name
    that the new options do not define is unknown afterwards, even if it was
    defined before and even if it is "default"; [Get] then returns the
    unknown-options error with the zero configuration, and the certificate
    hook of that closure treats SNI as not strict. *)
Theorem UpdateConfigs_replaces_options
    (s : State tls_Certificate certificateKey)
    (stores_ : gmap string Store) (configs_ : gmap string Options)
    (certs_ : list CertAndStores) (storeName configName : string) :
  configs_ !! configName = None →
  let reloaded := UpdateConfigs s stores_ configs_ certs_ in
  (Get reloaded storeName configName).1.2
  = Some (ErrUnknownTLSOptions configName)
  ∧ closure_tlsConfig (Get reloaded storeName configName).1.1 = zeroConfig
  ∧ sniStrictOf (manager (Get reloaded storeName configName).2)
      (closure_configName (Get reloaded storeName configName).1.1)
    = false.
Proof.
  intros Hnone reloaded.
  destruct (UpdateConfigs_frame s stores_ configs_ certs_)
    as (_ & _ & Hconfigs & _).
  destruct (Get_outcome reloaded storeName configName)
    as (Hget & Hname & Hconfigs1 & _).
  fold reloaded in Hconfigs. rewrite Hconfigs, Hnone in Hget.
  injection Hget as Herr Hconf.
  split_and!; [done..|].
  unfold sniStrictOf. by rewrite Hname, Hconfigs1, Hconfigs, Hnone.
Qed.

(** A manager fresh from [NewManager] knows the options name "default"
    and no other: [Get] returns a configuration without error exactly for
    that name, whatever the store name. *)
Lemma NewManager_knows_default_options (storeName configName : string) :
  (Get {| heap := []; manager := NewManager |} storeName configName).1.2
  = (if decide (configName = "default") then None
     else Some (ErrUnknownTLSOptions configName))
  ∧ (configName = "default" →
     closure_tlsConfig
       (Get {| heap := []; manager := NewManager |} storeName configName).1.1
     = maxVersionStage DefaultTLSOptions
         (minVersionStage DefaultTLSOptions initialConfig)).
Proof.
  destruct (Get_outcome
              {| heap := []; manager := NewManager |} storeName configName)
    as (Hget & _).
  cbn in Hget.
  destruct (decide (configName = "default")) as [->|Hne].
  - rewrite lookup_singleton_eq in Hget. injection Hget as Herr Hconf. done.
  - rewrite lookup_singleton_ne in Hget by done.
    injection Hget as Herr Hconf. done.
Qed.

Lemma appendCertificates_defaultStores (storesCertificates : StoresCertificates)
    (conf : CertAndStores) :
  appendCertificates storesCertificates (defaultStores conf)
  = appendCertificates storesCertificates conf.
Proof.
  by destruct conf as [cert [|store rest]].
Qed.

(** X30. A certificate that lists no store is handled exactly as one that
    lists the store "default": replacing every empty store list by
    ["default"] in the certificates does not change the state a reload
    leaves. *)
Theorem UpdateConfigs_default_store
    (s : State tls_Certificate certificateKey)
    (stores_ : gmap string Store) (configs_ : gmap string Options)
    (certs_ : list CertAndStores) :
  UpdateConfigs s stores_ configs_ (defaultStores <$> certs_)
  = UpdateConfigs s stores_ configs_ certs_.
Proof.
  unfold UpdateConfigs.
  assert (∀ acc, fold_left appendCertificates (defaultStores <$> certs_) acc
                 = fold_left appendCertificates certs_ acc) as ->.
  { induction certs_ as [|conf rest IH]; intros acc; [done|].
    cbn. by rewrite appendCertificates_defaultStores, IH. }
  assert (defaultStores <$> (defaultStores <$> certs_)
          = defaultStores <$> certs_) as ->; [|done].
  rewrite <- list_fmap_compose. apply list_fmap_ext. intros _ conf _. cbn.
  by destruct conf as [cert [|store rest]].
Qed.

End Coverage.

(** * The properties on concrete inputs *)

#[local] Existing Instance Sample.collaborators.

Lemma Sample_generatorSound : generatorSound.
Proof. intros [] cert [= <-]; reflexivity. Qed.

(** ** Cipher adaptation *)

(** C1: evaluation of the configuration-selection hook. The options list the
    suites A, B, C, D with B and D ChaCha20 suites, and the client offers a
    ChaCha20 suite first: the hook installs B, D, A, A, C, C, D, whereas the
    ChaCha20-first order of the configured list is B, D, A, C. With no
    ChaCha20 suite configured the hook installs the empty list. *)
Theorem GetConfigForClient_repeats_configured_suites :
  Config_CipherSuites
    (closure_tlsConfig (Sample.closureOf (Sample.reloaded Sample.fourSuites)))
  = Some [Sample.TLS_AES_128_GCM_SHA256; TLS_CHACHA20_POLY1305_SHA256;
          Sample.TLS_ECDHE_RSA_WITH_AES_128_GCM_SHA256;
          TLS_ECDHE_RSA_WITH_CHACHA20_POLY1305]
  ∧ Config_CipherSuites
      (GetConfigForClient
         (closure_tlsConfig
            (Sample.closureOf (Sample.reloaded Sample.fourSuites)))
         Sample.chachaHello)
    = Some [TLS_CHACHA20_POLY1305_SHA256; TLS_ECDHE_RSA_WITH_CHACHA20_POLY1305;
            Sample.TLS_AES_128_GCM_SHA256; Sample.TLS_AES_128_GCM_SHA256;
            Sample.TLS_ECDHE_RSA_WITH_AES_128_GCM_SHA256;
            Sample.TLS_ECDHE_RSA_WITH_AES_128_GCM_SHA256;
            TLS_ECDHE_RSA_WITH_CHACHA20_POLY1305]
  ∧ chachaFirst
      [Sample.TLS_AES_128_GCM_SHA256; TLS_CHACHA20_POLY1305_SHA256;
       Sample.TLS_ECDHE_RSA_WITH_AES_128_GCM_SHA256;
       TLS_ECDHE_RSA_WITH_CHACHA20_POLY1305]
    = [TLS_CHACHA20_POLY1305_SHA256; TLS_ECDHE_RSA_WITH_CHACHA20_POLY1305;
       Sample.TLS_AES_128_GCM_SHA256;
       Sample.TLS_ECDHE_RSA_WITH_AES_128_GCM_SHA256]
  ∧ Config_CipherSuites
      (GetConfigForClient
         (closure_tlsConfig
            (Sample.closureOf (Sample.reloaded Sample.withoutChaCha)))
         Sample.chachaHello)
    = Some [].
Proof. split_and!; vm_compute; reflexivity. Qed.

(** ** Snapshot of the options *)

(** C6: evaluation of the certificate hook of one closure before and after a
    reload. [Get] runs while the default options are not strict; the reload
    that follows makes them strict: the hook of the closure returned earlier
    turns from serving the default RSA certificate to the strict-SNI
    error. *)
Theorem GetCertificate_strict_SNI_follows_reload :
  GetCertificate (Sample.closureOf Sample.initial)
    (Sample.afterGet Sample.initial) Sample.aesHello
  = Ok (Some {| Sample.cert_name := "TRAEFIK DEFAULT CERT";
                Sample.cert_key := Sample.RSAKey |})
  ∧ GetCertificate (Sample.closureOf Sample.initial)
      (UpdateConfigs (Sample.afterGet Sample.initial) ∅
         {[ "default" := Sample.strictOptions ]} [])
      Sample.aesHello
    = Err (ErrStrictSNI "foo.example.com").
Proof. split; vm_compute; reflexivity. Qed.

(** ** Default certificates *)

(** C2, the claim as stated fails: a store configured with one RSA default
    certificate is built without error and its defaults hold that
    certificate only, hence no EC-capable record. *)
Lemma buildCertificateStore_RSA_default_lacks_EC :
  (buildCertificateStore Sample.rsaOnlyStore).2 = None
  ∧ DefaultCertificates (buildCertificateStore Sample.rsaOnlyStore).1
    = [ {| Sample.cert_name := "default.example.com";
           Sample.cert_key := Sample.RSAKey |} ]
  ∧ ¬ ∃ cert,
        cert ∈ DefaultCertificates (buildCertificateStore Sample.rsaOnlyStore).1
        ∧ GetCertificateType cert = Ok EC.
Proof.
  split_and!; [reflexivity..|].
  intros (cert & Hin & Htype). vm_compute in Hin.
  apply list_elem_of_singleton in Hin as ->. discriminate Htype.
Qed.

Lemma buildCertificateStore_defaults_hold_RSA_witness :
  (∃ cert,
     cert ∈ DefaultCertificates (buildCertificateStore zeroStore).1
     ∧ GetCertificateType cert = Ok RSA)
  ∧ (Store_DefaultCertificates zeroStore = [] →
     Store_DefaultCertificate zeroStore = None →
     ∃ rsaCert ecCert,
       DefaultCertificates (buildCertificateStore zeroStore).1
       = [rsaCert; ecCert]
       ∧ generate_DefaultCertificate RSA = Ok rsaCert
       ∧ generate_DefaultCertificate EC = Ok ecCert
       ∧ GetCertificateType rsaCert = Ok RSA
       ∧ GetCertificateType ecCert = Ok EC).
Proof.
  apply (buildCertificateStore_defaults_hold_RSA zeroStore).
  - exact Sample_generatorSound.
  - reflexivity.
Defined.

(** C3, the claim as stated fails: the store configured with two RSA default
    certificates is built without error and has no EC default; for a client
    that prefers EC the fallback returns the second RSA default, not the
    first. *)
Lemma defaultCertificate_EC_hint_returns_later_RSA :
  (buildCertificateStore Sample.twoRSAStore).2 = None
  ∧ firstOfType EC
      (DefaultCertificates (buildCertificateStore Sample.twoRSAStore).1)
    = None
  ∧ firstOfType RSA
      (DefaultCertificates (buildCertificateStore Sample.twoRSAStore).1)
    = Some {| Sample.cert_name := "first.example.com";
              Sample.cert_key := Sample.RSAKey |}
  ∧ defaultCertificateLoop EC
      (DefaultCertificates (buildCertificateStore Sample.twoRSAStore).1) None
    = Some {| Sample.cert_name := "second.example.com";
              Sample.cert_key := Sample.RSAKey |}
  ∧ defaultCertificateLoop EC
      (DefaultCertificates (buildCertificateStore Sample.twoRSAStore).1) None
    ≠ firstOfType RSA
        (DefaultCertificates (buildCertificateStore Sample.twoRSAStore).1).
Proof. split_and!; [reflexivity..|]. vm_compute. discriminate. Qed.

Lemma defaultCertificate_of_built_store_witness :
  defaultCertificateLoop EC
    (DefaultCertificates (buildCertificateStore Sample.twoRSAStore).1) None
  = match firstOfType EC
            (DefaultCertificates (buildCertificateStore Sample.twoRSAStore).1)
    with
    | Some cert => Some cert
    | None =>
        lastOfType RSA
          (DefaultCertificates (buildCertificateStore Sample.twoRSAStore).1)
    end
  ∧ ∃ cert,
      defaultCertificateLoop EC
        (DefaultCertificates (buildCertificateStore Sample.twoRSAStore).1) None
      = Some cert
      ∧ cert ∈ DefaultCertificates (buildCertificateStore Sample.twoRSAStore).1.
Proof.
  apply (defaultCertificate_of_built_store Sample.twoRSAStore _ EC).
  - exact Sample_generatorSound.
  - reflexivity.
Defined.

(** ** The certificate hook *)


Lemma GetCertificate_returns_alpn_error_witness :
  GetCertificate (Sample.closureOf Sample.withFailingAlpn)
    (Sample.afterGet Sample.withFailingAlpn) Sample.aesHello
  = Err Sample.alpnUnavailable.
Proof.
  apply (GetCertificate_returns_alpn_error _ _ _
           (fun _ => Err Sample.alpnUnavailable)); reflexivity.
Defined.

(** ** Store resolution *)

(** C5, the claim as stated fails: the store that [GetStore] creates for a
    name missing from the registry of a new manager has two default
    certificates, the generated RSA and EC ones. *)
Lemma GetStore_unknown_name_has_default_certificates :
  stores (manager Sample.initial) !! "internal" = None
  ∧ DefaultCertificates
      (deref (heap (GetStore Sample.initial "internal").2)
         (GetStore Sample.initial "internal").1)
    = [ {| Sample.cert_name := "TRAEFIK DEFAULT CERT";
           Sample.cert_key := Sample.RSAKey |};
        {| Sample.cert_name := "TRAEFIK DEFAULT CERT";
           Sample.cert_key := Sample.ECDSAKey |} ]
  ∧ DefaultCertificates
      (deref (heap (GetStore Sample.initial "internal").2)
         (GetStore Sample.initial "internal").1)
    ≠ [].
Proof. split_and!; [reflexivity..|]. vm_compute. discriminate. Qed.

Lemma getStore_unknown_name_builds_store_witness :
  ∃ store s',
    GetStore Sample.initial "internal" = (length (heap Sample.initial), s')
    ∧ (Get Sample.initial "internal" "default").2 = s'
    ∧ closure_store (Get Sample.initial "internal" "default").1.1
      = length (heap Sample.initial)
    ∧ heap Sample.initial !! length (heap Sample.initial) = None
    ∧ heap s' !! length (heap Sample.initial) = Some store
    ∧ stores (manager s') !! "internal" = Some (length (heap Sample.initial))
    ∧ store = (buildCertificateStore zeroStore).1
    ∧ DynamicCerts store = ∅
    ∧ DefaultCertificates store
      = match generate_DefaultCertificate RSA,
              generate_DefaultCertificate EC with
        | Ok rsaCert, Ok ecCert => [rsaCert; ecCert]
        | _, _ => []
        end.
Proof.
  apply (getStore_unknown_name_builds_store Sample.initial "internal" "default").
  reflexivity.
Defined.

(** ** [buildTLSConfig] *)

Lemma buildTLSConfig_verifying_policy_requires_CAFiles_witness :
  buildTLSConfig Sample.verifyWithoutCA
  = Err (ErrCAFilesRequired
           (ClientAuthType (Options_ClientAuth Sample.verifyWithoutCA))).
Proof.
  apply (buildTLSConfig_verifying_policy_requires_CAFiles
           Sample.verifyWithoutCA).
  - reflexivity.
  - right. reflexivity.
Defined.

(** C8, the claim as stated fails: every cipher-suite identifier of these
    options is in the table, yet [buildTLSConfig] fails, on the client-auth
    policy string, which is none of the five known ones. *)
Lemma buildTLSConfig_known_ciphers_unknown_policy :
  Forall (fun cipher => is_Some (CipherSuites !! cipher))
    (default [] (Options_CipherSuites Sample.unknownPolicy))
  ∧ buildTLSConfig Sample.unknownPolicy
    = Err (ErrUnknownClientAuthType "RequireClientCert").
Proof.
  split; [|reflexivity].
  repeat constructor. by eexists.
Qed.

Lemma buildTLSConfig_cipherSuites_in_order_witness :
  ∃ conf,
    buildTLSConfig Sample.fourSuites = Ok conf
    ∧ Forall2 (fun cipher id => CipherSuites !! cipher = Some id)
        (default [] (Options_CipherSuites Sample.fourSuites))
        (default [] (Config_CipherSuites conf)).
Proof.
  apply (buildTLSConfig_cipherSuites_in_order Sample.fourSuites).
  - repeat constructor; by eexists.
  - reflexivity.
  - repeat constructor; by eexists.
Defined.

(** C9, the claim as stated fails: these options name one CA file, which is
    read and parsed, and no client-auth policy, yet [buildTLSConfig] returns
    no configuration, because their cipher-suite identifier is not in the
    table. *)
Lemma buildTLSConfig_CAFiles_unknown_cipher :
  CAFiles (Options_ClientAuth Sample.caWithUnknownCipher) = [Sample.caFile]
  ∧ loadCAFiles [Sample.caFile] NewCertPool = Ok [Sample.caFile]
  ∧ ClientAuthType (Options_ClientAuth Sample.caWithUnknownCipher) = ""
  ∧ buildTLSConfig Sample.caWithUnknownCipher
    = Err (ErrInvalidCipherSuite "TLS_NULL_WITH_NULL_NULL").
Proof. split_and!; reflexivity. Qed.

Lemma buildTLSConfig_CAFiles_alone_require_and_verify_witness :
  ∃ conf,
    buildTLSConfig Sample.caOnly = Ok conf
    ∧ Config_ClientAuth conf = RequireAndVerifyClientCert
    ∧ Config_ClientCAs conf = Some [Sample.caFile].
Proof.
  apply (buildTLSConfig_CAFiles_alone_require_and_verify Sample.caOnly).
  - discriminate.
  - reflexivity.
  - reflexivity.
  - constructor.
  - repeat constructor; by eexists.
Defined.

(** * The further properties on concrete inputs *)

(** ** [buildTLSConfig] *)

Lemma buildTLSConfig_NextProtos_witness :
  Config_NextProtos (Sample.configOf Sample.caOnly)
  = ["h2"; "http/1.1"; ACMETLS1Protocol].
Proof.
  apply (buildTLSConfig_NextProtos Sample.caOnly). reflexivity.
Defined.

Lemma buildTLSConfig_versions_witness :
  Config_MinVersion (Sample.configOf Sample.fourSuites)
  = default 0 (MinVersion !! Options_MinVersion Sample.fourSuites)
  ∧ Config_MaxVersion (Sample.configOf Sample.fourSuites)
    = default 0 (MaxVersion !! Options_MaxVersion Sample.fourSuites)
  ∧ Config_PreferServerCipherSuites (Sample.configOf Sample.fourSuites)
    = bool_decide
        (is_Some (MinVersion !! Options_MinVersion Sample.fourSuites)
         ∨ is_Some (MaxVersion !! Options_MaxVersion Sample.fourSuites)).
Proof.
  apply (buildTLSConfig_versions Sample.fourSuites). reflexivity.
Defined.

Lemma buildTLSConfig_client_auth_policy_witness :
  Config_ClientAuth (Sample.configOf Sample.caWithNoClientCert)
  = match policyOf
            (ClientAuthType (Options_ClientAuth Sample.caWithNoClientCert))
    with
    | Some policy => policy
    | None =>
        if (0 <? length
                   (CAFiles (Options_ClientAuth Sample.caWithNoClientCert)))%nat
        then RequireAndVerifyClientCert
        else NoClientCert
    end.
Proof.
  apply (buildTLSConfig_client_auth_policy Sample.caWithNoClientCert).
  reflexivity.
Defined.

Lemma buildTLSConfig_trust_pool_witness :
  (∃ pool, loadCAFiles [Sample.caFile] NewCertPool = Ok pool
           ∧ Config_ClientCAs (Sample.configOf Sample.caOnly) = Some pool)
  ∧ (verifies (Config_ClientAuth (Sample.configOf Sample.caOnly)) = true →
     is_Some (Config_ClientCAs (Sample.configOf Sample.caOnly))).
Proof.
  apply (buildTLSConfig_trust_pool Sample.caOnly). reflexivity.
Defined.

Lemma buildTLSConfig_unknown_policy_witness :
  buildTLSConfig Sample.unknownPolicy
  = Err (ErrUnknownClientAuthType
           (ClientAuthType (Options_ClientAuth Sample.unknownPolicy))).
Proof.
  apply (buildTLSConfig_unknown_policy Sample.unknownPolicy).
  - reflexivity.
  - discriminate.
  - reflexivity.
Defined.

Lemma buildTLSConfig_first_unknown_cipher_witness :
  buildTLSConfig Sample.secondCipherUnknown
  = Err (ErrInvalidCipherSuite "TLS_NULL_WITH_NULL_NULL").
Proof.
  apply (buildTLSConfig_first_unknown_cipher Sample.secondCipherUnknown
           ["TLS_AES_128_GCM_SHA256"] ["TLS_CHACHA20_POLY1305_SHA256"]).
  - reflexivity.
  - reflexivity.
  - repeat constructor. by eexists.
  - reflexivity.
Defined.

Lemma buildTLSConfig_first_unknown_curve_witness :
  buildTLSConfig Sample.unknownCurve = Err (ErrInvalidCurveID "secp256k1").
Proof.
  apply (buildTLSConfig_first_unknown_curve Sample.unknownCurve
           ["CurveP256"] ["X25519"]).
  - reflexivity.
  - repeat constructor. by eexists.
  - reflexivity.
  - repeat constructor. by eexists.
  - reflexivity.
Defined.

Lemma buildTLSConfig_first_bad_CA_file_witness :
  (∀ err,
     Read "not a certificate" = Err err →
     buildTLSConfig Sample.secondCAInvalid = Err err)
  ∧ (∀ data,
       Read "not a certificate" = Ok data →
       (AppendCertsFromPEM [Sample.caFile] data).2 = false →
       buildTLSConfig Sample.secondCAInvalid
       = Err (if IsPath "not a certificate"
              then ErrInvalidCertificatesIn "not a certificate"
              else ErrInvalidCertificatesContent)).
Proof.
  apply (buildTLSConfig_first_bad_CA_file Sample.secondCAInvalid
           [Sample.caFile] ["/missing.pem"] "not a certificate"
           [Sample.caFile]); reflexivity.
Defined.

Lemma buildTLSConfig_no_ciphers_no_adaptation_witness :
  Config_CipherSuites (Sample.configOf Sample.strictOptions)
  = (fun _ => []) <$> Options_CipherSuites Sample.strictOptions
  ∧ GetConfigForClient (Sample.configOf Sample.strictOptions)
      Sample.chachaHello
    = Sample.configOf Sample.strictOptions.
Proof.
  apply (buildTLSConfig_no_ciphers_no_adaptation Sample.strictOptions);
    reflexivity.
Defined.

(** ** Default certificates *)

Lemma buildDefaultCertificates_first_failure_witness :
  buildDefaultCertificates Sample.secondKeyUnreadable
  = Err (ErrKeyFileContent (ErrExternal "no such file"))
  ∧ ∃ cause,
      ErrKeyFileContent (ErrExternal "no such file") = ErrCertFileContent cause
      ∨ ErrKeyFileContent (ErrExternal "no such file")
        = ErrKeyFileContent cause
      ∨ ErrKeyFileContent (ErrExternal "no such file")
        = ErrLoadX509KeyPair cause.
Proof.
  apply (buildDefaultCertificates_first_failure
           [ {| CertFile := "first.example.com"; KeyFile := "rsa key" |} ]
           [ {| CertFile := "third.example.com"; KeyFile := "rsa key" |} ]
           {| CertFile := "second.example.com"; KeyFile := "/missing.pem" |}).
  - repeat constructor.
  - reflexivity.
Defined.

Lemma buildCertificateStore_explicit_defaults_witness :
  ∃ explicit,
    Forall2 (fun cert builtCert => buildDefaultCertificate cert = Ok builtCert)
      (configuredCertificates Sample.ecOnlyStore) explicit
    ∧ if existsb (hasType RSA) explicit
      then DefaultCertificates (buildCertificateStore Sample.ecOnlyStore).1
           = explicit
      else ∃ rsaCert,
             generate_DefaultCertificate RSA = Ok rsaCert
             ∧ DefaultCertificates (buildCertificateStore Sample.ecOnlyStore).1
               = explicit ++ [rsaCert].
Proof.
  apply (buildCertificateStore_explicit_defaults Sample.ecOnlyStore).
  - discriminate.
  - reflexivity.
Defined.

Lemma buildCertificateStore_failure_witness :
  DynamicCerts
    (buildCertificateStore (collab := Sample.withoutRSAGenerator)
       Sample.ecOnlyStore).1 = ∅
  ∧ (DefaultCertificates
       (buildCertificateStore (collab := Sample.withoutRSAGenerator)
          Sample.ecOnlyStore).1 = []
     ∨ (Forall2
          (fun cert builtCert =>
             buildDefaultCertificate (collab := Sample.withoutRSAGenerator)
               cert = Ok builtCert)
          (configuredCertificates Sample.ecOnlyStore)
          (DefaultCertificates
             (buildCertificateStore (collab := Sample.withoutRSAGenerator)
                Sample.ecOnlyStore).1)
        ∧ existsb (hasType (collab := Sample.withoutRSAGenerator) RSA)
            (DefaultCertificates
               (buildCertificateStore (collab := Sample.withoutRSAGenerator)
                  Sample.ecOnlyStore).1) = false
        ∧ generate_DefaultCertificate (Collaborators := Sample.withoutRSAGenerator)
            RSA
          = Err (ErrExternal "rsa: key generation failed"))).
Proof.
  apply (buildCertificateStore_failure (collab := Sample.withoutRSAGenerator)
           Sample.ecOnlyStore).
  reflexivity.
Defined.

Lemma defaultCertificateLoop_Some_witness :
  {| Sample.cert_name := "second.example.com";
     Sample.cert_key := Sample.RSAKey |}
  ∈ DefaultCertificates (buildCertificateStore Sample.twoRSAStore).1
  ∧ (GetCertificateType
       {| Sample.cert_name := "second.example.com";
          Sample.cert_key := Sample.RSAKey |} = Ok EC
     ∨ (EC = EC
        ∧ GetCertificateType
            {| Sample.cert_name := "second.example.com";
               Sample.cert_key := Sample.RSAKey |} = Ok RSA
        ∧ firstOfType EC
            (DefaultCertificates (buildCertificateStore Sample.twoRSAStore).1)
          = None)).
Proof.
  apply (defaultCertificateLoop_Some EC). reflexivity.
Defined.

(** ** The configuration-selection hook *)

Lemma GetConfigForClient_keeps_base_witness :
  GetConfigForClient (Sample.configOf Sample.fourSuites) Sample.aesHello
  = Sample.configOf Sample.fourSuites.
Proof.
  apply GetConfigForClient_keeps_base. right. reflexivity.
Defined.

Lemma GetConfigForClient_without_chacha_empties_witness :
  Config_CipherSuites
    (GetConfigForClient (Sample.configOf Sample.withoutChaCha)
       Sample.chachaHello)
  = Some [].
Proof.
  apply (GetConfigForClient_without_chacha_empties _ _
           [Sample.TLS_AES_128_GCM_SHA256;
            Sample.TLS_ECDHE_RSA_WITH_AES_128_GCM_SHA256]
           [Sample.TLS_AES_128_GCM_SHA256] TLS_CHACHA20_POLY1305_SHA256).
  - reflexivity.
  - discriminate.
  - repeat constructor.
  - reflexivity.
  - reflexivity.
Defined.

Lemma GetConfigForClient_with_chacha_same_suites_witness :
  ∃ rest,
    Config_CipherSuites
      (GetConfigForClient (Sample.configOf Sample.fourSuites)
         Sample.chachaHello)
    = Some (List.filter isChaChaCipherSuite
              [Sample.TLS_AES_128_GCM_SHA256; TLS_CHACHA20_POLY1305_SHA256;
               Sample.TLS_ECDHE_RSA_WITH_AES_128_GCM_SHA256;
               TLS_ECDHE_RSA_WITH_CHACHA20_POLY1305] ++ rest)
    ∧ ∀ cipherSuite,
        cipherSuite
        ∈ List.filter isChaChaCipherSuite
            [Sample.TLS_AES_128_GCM_SHA256; TLS_CHACHA20_POLY1305_SHA256;
             Sample.TLS_ECDHE_RSA_WITH_AES_128_GCM_SHA256;
             TLS_ECDHE_RSA_WITH_CHACHA20_POLY1305] ++ rest ↔
        cipherSuite
        ∈ [Sample.TLS_AES_128_GCM_SHA256; TLS_CHACHA20_POLY1305_SHA256;
           Sample.TLS_ECDHE_RSA_WITH_AES_128_GCM_SHA256;
           TLS_ECDHE_RSA_WITH_CHACHA20_POLY1305].
Proof.
  apply (GetConfigForClient_with_chacha_same_suites _ _ _
           [Sample.TLS_AES_128_GCM_SHA256] TLS_CHACHA20_POLY1305_SHA256).
  - reflexivity.
  - discriminate.
  - reflexivity.
  - reflexivity.
Defined.

Lemma GetConfigForClient_one_chacha_moves_it_first_witness :
  Config_CipherSuites
    (GetConfigForClient (Sample.configOf Sample.oneChaCha) Sample.chachaHello)
  = Some (TLS_CHACHA20_POLY1305_SHA256
          :: List.filter (fun c => negb (isChaChaCipherSuite c))
               [Sample.TLS_AES_128_GCM_SHA256; TLS_CHACHA20_POLY1305_SHA256;
                Sample.TLS_ECDHE_RSA_WITH_AES_128_GCM_SHA256]).
Proof.
  apply (GetConfigForClient_one_chacha_moves_it_first _ _ _
           [Sample.TLS_AES_128_GCM_SHA256] TLS_CHACHA20_POLY1305_SHA256).
  - reflexivity.
  - reflexivity.
  - reflexivity.
  - reflexivity.
Defined.

(** ** States of the manager *)

Lemma Sample_reloaded_reachable (tlsOption : Options) :
  reachable (Sample.reloaded tlsOption).
Proof. apply rtc_once. apply step_UpdateConfigs. Qed.


Lemma captured_store_is_a_snapshot_witness :
  heap (UpdateConfigs
          (Get (Sample.reloaded Sample.fourSuites) "default" "default").2
          ∅ {[ "default" := Sample.strictOptions ]} [])
    !! closure_store
         (Get (Sample.reloaded Sample.fourSuites) "default" "default").1.1
  = Some (default createdStore
            (storeOf (Sample.reloaded Sample.fourSuites) "default")).
Proof.
  apply captured_store_is_a_snapshot.
  - apply Sample_reloaded_reachable.
  - apply rtc_once. apply step_UpdateConfigs.
Defined.

Lemma GetCertificate_after_later_calls_witness :
  GetCertificate
    (Get (Sample.reloaded Sample.fourSuites) "default" "default").1.1
    (UpdateConfigs
       (Get (Sample.reloaded Sample.fourSuites) "default" "default").2
       ∅ {[ "default" := Sample.oneChaCha ]} [])
    Sample.aesHello
  = GetCertificate
      (Get (Sample.reloaded Sample.fourSuites) "default" "default").1.1
      (Get (Sample.reloaded Sample.fourSuites) "default" "default").2
      Sample.aesHello.
Proof.
  apply GetCertificate_after_later_calls.
  - apply Sample_reloaded_reachable.
  - apply rtc_once. apply step_UpdateConfigs.
  - reflexivity.
  - reflexivity.
Defined.


Lemma UpdateConfigs_replaces_options_witness :
  (Get (UpdateConfigs Sample.initial ∅
          {[ "strict" := Sample.strictOptions ]} [])
     "default" "default").1.2
  = Some (ErrUnknownTLSOptions "default")
  ∧ closure_tlsConfig
      (Get (UpdateConfigs Sample.initial ∅
              {[ "strict" := Sample.strictOptions ]} [])
         "default" "default").1.1
    = zeroConfig
  ∧ sniStrictOf
      (manager
         (Get (UpdateConfigs Sample.initial ∅
                 {[ "strict" := Sample.strictOptions ]} [])
            "default" "default").2)
      (closure_configName
         (Get (UpdateConfigs Sample.initial ∅
                 {[ "strict" := Sample.strictOptions ]} [])
            "default" "default").1.1)
    = false.
Proof.
  apply (UpdateConfigs_replaces_options Sample.initial).
  reflexivity.
Defined.
